(** * ld-relay: a shallow embedding of [ld-relay.go] and its request handlers

    The development follows the layout of the Go file.  The library
    functions the relay calls (encoding/base64, regexp, encoding/json,
    net/http) are modelled first, each in a module named after the Go
    package; the relay's own functions follow under the names they have
    in the source. *)

From Stdlib Require Import ZArith NArith Ascii String List Lia Bool.
From stdpp Require Import gmap strings list fin_maps.

Local Open Scope string_scope.
Local Open Scope list_scope.
Local Open Scope N_scope.

(** Go strings and byte slices are both sequences of bytes; the
    conversion [[]byte(s)] is the identity in this model. *)
Abbreviation bytes := string (only parsing).

(* ===================================================================== *)
(** ** encoding/base64 *)
(* ===================================================================== *)

Module base64.

(** [const encodeURL] of the Go package. *)
Definition encodeURL : string :=
  "ABCDEFGHIJKLMNOPQRSTUVWXYZabcdefghijklmnopqrstuvwxyz0123456789-_".

(** An [Encoding]: the 64 character alphabet and the padding
    character, [None] standing for [NoPadding]. *)
Record Encoding := mkEncoding {
  encode : string;
  padChar : option ascii
}.

Definition URLEncoding : Encoding := mkEncoding encodeURL (Some "="%char).
Definition RawURLEncoding : Encoding := mkEncoding encodeURL None.

(** [enc.encode[v]] *)
Definition encodeChar (enc : Encoding) (v : N) : ascii :=
  match String.get (N.to_nat v) (encode enc) with
  | Some c => c
  | None => "000"%char
  end.

(** [enc.decodeMap[c]]: the position of [c] in the alphabet; [None]
    stands for the entry 0xFF. *)
Fixpoint index_of (c : ascii) (alphabet : string) (i : N) : option N :=
  match alphabet with
  | EmptyString => None
  | String a rest => if Ascii.eqb a c then Some i else index_of c rest (i + 1)
  end.

Definition decodeMap (enc : Encoding) (c : ascii) : option N :=
  index_of c (encode enc) 0.

(** Conversion [byte(x)] of an unsigned integer. *)
Definition byte (x : N) : ascii := ascii_of_N (N.land x 255).

Definition padding (enc : Encoding) (n : nat) : string :=
  match padChar enc with
  | Some p => string_of_list_ascii (repeat p n)
  | None => EmptyString
  end.

(** [Encoding.EncodeToString]: whole groups of three bytes first, then
    the remainder of one or two bytes. *)
Fixpoint EncodeToString (enc : Encoding) (src : bytes) : string :=
  match src with
  | String a (String b (String c rest)) =>
      let val := N.lor (N.lor (N.shiftl (N_of_ascii a) 16)
                              (N.shiftl (N_of_ascii b) 8)) (N_of_ascii c) in
      String (encodeChar enc (N.land (N.shiftr val 18) 63))
     (String (encodeChar enc (N.land (N.shiftr val 12) 63))
     (String (encodeChar enc (N.land (N.shiftr val 6) 63))
     (String (encodeChar enc (N.land val 63))
             (EncodeToString enc rest))))
  | String a (String b EmptyString) =>
      let val := N.lor (N.shiftl (N_of_ascii a) 16) (N.shiftl (N_of_ascii b) 8) in
      String (encodeChar enc (N.land (N.shiftr val 18) 63))
     (String (encodeChar enc (N.land (N.shiftr val 12) 63))
     (String (encodeChar enc (N.land (N.shiftr val 6) 63))
             (padding enc 1)))
  | String a EmptyString =>
      let val := N.shiftl (N_of_ascii a) 16 in
      String (encodeChar enc (N.land (N.shiftr val 18) 63))
     (String (encodeChar enc (N.land (N.shiftr val 12) 63))
             (padding enc 2))
  | EmptyString => EmptyString
  end.

Definition isNewline (c : ascii) : bool :=
  Ascii.eqb c "010"%char || Ascii.eqb c "013"%char.

Definition isPad (enc : Encoding) (c : ascii) : bool :=
  match padChar enc with
  | Some p => Ascii.eqb c p
  | None => false
  end.

Fixpoint skipNewlines (src : string) : string :=
  match src with
  | String c rest => if isNewline c then skipNewlines rest else src
  | EmptyString => src
  end.

(** The bytes of one quantum: [dbuf] holds the [dlen] six-bit values
    read so far ([dlen] is 2, 3 or 4), and [dlen - 1] bytes come out. *)
Definition quantum (dbuf : list N) : bytes :=
  let d i := nth i dbuf 0 in
  let val := N.lor (N.lor (N.lor (N.shiftl (d 0%nat) 18) (N.shiftl (d 1%nat) 12))
                          (N.shiftl (d 2%nat) 6)) (d 3%nat) in
  match length dbuf with
  | 4%nat => String (byte (N.shiftr val 16))
            (String (byte (N.shiftr val 8)) (String (byte val) EmptyString))
  | 3%nat => String (byte (N.shiftr val 16)) (String (byte (N.shiftr val 8)) EmptyString)
  | 2%nat => String (byte (N.shiftr val 16)) EmptyString
  | _ => EmptyString
  end.

Definition atEnd (src : string) : bool :=
  match src with EmptyString => true | _ => false end.

(** [Encoding.decode]: [dbuf] is the quantum being filled.  The result
    [None] stands for a [CorruptInputError]; the bytes Go returns next
    to an error are dropped, the relay never reads them. *)
Fixpoint decode (enc : Encoding) (src : string) (dbuf : list N) : option bytes :=
  match src with
  | EmptyString =>
      match dbuf with
      | [] => Some EmptyString
      | [_] => None
      | _ => match padChar enc with
             | Some _ => None
             | None => Some (quantum dbuf)
             end
      end
  | String c rest =>
      match decodeMap enc c with
      | Some out =>
          let dbuf' := dbuf ++ [out] in
          if (length dbuf' =? 4)%nat
          then option_map (String.append (quantum dbuf')) (decode enc rest [])
          else decode enc rest dbuf'
      | None =>
          if isNewline c then decode enc rest dbuf
          else if isPad enc c then
            match length dbuf with
            | 0%nat | 1%nat => None
            | 2%nat =>
                match skipNewlines rest with
                | EmptyString => None
                | String c' rest' =>
                    if isPad enc c' && atEnd (skipNewlines rest')
                    then Some (quantum dbuf) else None
                end
            | _ =>
                if atEnd (skipNewlines rest) then Some (quantum dbuf) else None
            end
          else None
      end
  end.

Definition DecodeString (enc : Encoding) (s : string) : option bytes :=
  decode enc s [].

End base64.

(* ===================================================================== *)
(** ** The relay: decoding the user of an evaluation request *)
(* ===================================================================== *)

(** A Go [error] is identified with its message. *)
Definition error := string.

Definition base64urlDecode (base64String : string) : bytes + error :=
  match base64.DecodeString base64.URLEncoding base64String with
  | Some idStr => inl idStr
  | None =>
      match base64.DecodeString base64.RawURLEncoding base64String with
      | Some idStrRaw => inl idStrRaw
      | None => inr "String did not decode as valid base64"
      end
  end.


(* ===================================================================== *)
(** ** regexp *)
(* ===================================================================== *)

Module regexp.

(** The syntax tree of a pattern, with the operators of
    [regexp/syntax] that occur in the relay's pattern.  Literals and
    classes are over bytes: the pattern is ASCII, and a byte of a
    multi-byte rune matches none of its classes. *)
Inductive Regexp : Type :=
| OpEmptyMatch
| OpLiteral (c : ascii)
| OpCharClass (ranges : list (ascii * ascii))
| OpBeginText
| OpEndText
| OpCapture (index : nat) (sub : Regexp)
| OpQuest (sub : Regexp)
| OpRepeat (count : nat) (sub : Regexp)
| OpConcat (sub1 sub2 : Regexp).

(** The literal string [s]. *)
Fixpoint literal (s : string) : Regexp :=
  match s with
  | EmptyString => OpEmptyMatch
  | String c rest => OpConcat (OpLiteral c) (literal rest)
  end.

Definition concat (subs : list Regexp) : Regexp :=
  foldr OpConcat OpEmptyMatch subs.

Definition inClass (ranges : list (ascii * ascii)) (c : ascii) : bool :=
  existsb (fun r => (N_of_ascii (fst r) <=? N_of_ascii c)
                    && (N_of_ascii c <=? N_of_ascii (snd r))) ranges.

(** A thread of the matcher: the offset reached, the input that is
    left, and the groups captured so far (latest first). *)
Record thread := mkThread {
  pos : nat;
  input : string;
  cap : list (nat * string)
}.

Definition step (t : thread) (ok : ascii -> bool) : list thread :=
  match input t with
  | String a rest => if ok a then [mkThread (S (pos t)) rest (cap t)] else []
  | EmptyString => []
  end.

(** All the ways [re] matches at the front of a thread, in the order
    in which a backtracking matcher tries them: this is the preference
    order of Go's leftmost-first semantics. *)
Fixpoint exec (re : Regexp) (t : thread) : list thread :=
  match re with
  | OpEmptyMatch => [t]
  | OpLiteral c => step t (Ascii.eqb c)
  | OpCharClass ranges => step t (inClass ranges)
  | OpBeginText => if (pos t =? 0)%nat then [t] else []
  | OpEndText => match input t with EmptyString => [t] | _ => [] end
  | OpCapture i sub =>
      map (fun t' => mkThread (pos t') (input t')
                       ((i, substring 0 (pos t' - pos t) (input t)) :: cap t'))
          (exec sub t)
  | OpQuest sub => exec sub t ++ [t]
  | OpRepeat n sub =>
      Nat.iter n (fun k t0 => flat_map k (exec sub t0)) (fun t0 => [t0]) t
  | OpConcat sub1 sub2 => flat_map (exec sub2) (exec sub1 t)
  end.

Fixpoint numSubexp (re : Regexp) : nat :=
  match re with
  | OpCapture i sub => Nat.max i (numSubexp sub)
  | OpQuest sub | OpRepeat _ sub => numSubexp sub
  | OpConcat sub1 sub2 => Nat.max (numSubexp sub1) (numSubexp sub2)
  | _ => 0
  end.

Definition group (t : thread) (i : nat) : string :=
  match find (fun c => (fst c =? i)%nat) (cap t) with
  | Some c => snd c
  | None => EmptyString
  end.

(** The leftmost match: start offsets are tried from [start] on. *)
Fixpoint search (re : Regexp) (start : nat) (s : string) : option (string * thread) :=
  match exec re (mkThread start s []) with
  | t :: _ => Some (substring 0 (pos t - start) s, t)
  | [] =>
      match s with
      | String _ rest => search re (S start) rest
      | EmptyString => None
      end
  end.

(** [Regexp.FindStringSubmatch]: the text of the leftmost match and of
    its groups; [None] is the nil slice. *)
Definition FindStringSubmatch (re : Regexp) (s : string) : option (list string) :=
  match search re 0 s with
  | Some (whole, t) => Some (whole :: map (group t) (seq 1 (numSubexp re)))
  | None => None
  end.

End regexp.

(** [uuidHeaderPattern]:
    [^(?:api_key )?((?:[a-z]{3}-)?[a-f0-9]{8}-[a-f0-9]{4}-4[a-f0-9]{3}-[89aAbB][a-f0-9]{3}-[a-f0-9]{12})$] *)
Definition hexClass : regexp.Regexp :=
  regexp.OpCharClass [("a", "f"); ("0", "9")]%char.

Definition tokenPattern : regexp.Regexp :=
  regexp.concat
    [ regexp.OpQuest (regexp.concat
        [regexp.OpRepeat 3 (regexp.OpCharClass [("a", "z")]%char); regexp.OpLiteral "-"]);
      regexp.OpRepeat 8 hexClass; regexp.OpLiteral "-";
      regexp.OpRepeat 4 hexClass; regexp.OpLiteral "-";
      regexp.OpLiteral "4"; regexp.OpRepeat 3 hexClass; regexp.OpLiteral "-";
      regexp.OpCharClass [("8", "9"); ("a", "a"); ("A", "A"); ("b", "b"); ("B", "B")]%char;
      regexp.OpRepeat 3 hexClass; regexp.OpLiteral "-";
      regexp.OpRepeat 12 hexClass ].

Definition uuidHeaderPattern : regexp.Regexp :=
  regexp.concat
    [ regexp.OpBeginText;
      regexp.OpQuest (regexp.literal "api_key ");
      regexp.OpCapture 1 tokenPattern;
      regexp.OpEndText ].

(* ===================================================================== *)
(** ** net/http and gorilla/mux, as far as the relay uses them *)
(* ===================================================================== *)

Module http.

Definition StatusOK : nat := 200.
Definition StatusBadRequest : nat := 400.
Definition StatusUnauthorized : nat := 401.
Definition StatusNotFound : nat := 404.
Definition StatusUnsupportedMediaType : nat := 415.
Definition StatusInternalServerError : nat := 500.

(** [http.Header] is [map[string][]string].  The keys the relay uses
    ("Authorization", "Content-Type", "Access-Control-Allow-Origin")
    are already in canonical form, so [Header.Get] and [Header.Set] look them up as
    they are. *)
Definition Header := gmap string (list string).

Definition Header_Get (h : Header) (key : string) : string :=
  match h !! key with
  | Some (v :: _) => v
  | _ => EmptyString
  end.

Definition Header_Set (h : Header) (key value : string) : Header :=
  <[key := [value]]> h.

(** An inbound request.  [Vars] is [mux.Vars(req)], [Value] is
    [req.Context().Value("context")] ([None] being nil). *)
Record Request (V : Type) := mkRequest {
  Method : string;
  ReqHeader : Header;
  Body : bytes;
  Vars : gmap string string;
  Value : option V
}.
Arguments mkRequest {V}.
Arguments Method {V}.
Arguments ReqHeader {V}.
Arguments Body {V}.
Arguments Vars {V}.
Arguments Value {V}.

(** [req.WithContext(context.WithValue(req.Context(), "context", v))] *)
Definition WithValue {V} (req : Request V) (v : V) : Request V :=
  mkRequest (Method req) (ReqHeader req) (Body req) (Vars req) (Some v).

(** [mux.Vars(req)[name]]; a missing variable reads as the empty string. *)
Definition Var {V} (req : Request V) (name : string) : string :=
  default EmptyString (Vars req !! name).

(** What a handler has done to its [http.ResponseWriter]: the header
    map, the status line once written (with the header map as it was
    at that moment, which is what goes on the wire) and the body
    written so far. *)
Record ResponseWriter := mkResponseWriter {
  header : Header;
  written : option (nat * Header);
  body : bytes
}.

Definition NewResponseWriter : ResponseWriter :=
  mkResponseWriter ∅ None EmptyString.

Definition SetHeader (key value : string) (w : ResponseWriter) : ResponseWriter :=
  mkResponseWriter (Header_Set (header w) key value) (written w) (body w).

(** [w.WriteHeader(code)]; a second call changes nothing. *)
Definition WriteHeader (code : nat) (w : ResponseWriter) : ResponseWriter :=
  match written w with
  | Some _ => w
  | None => mkResponseWriter (header w) (Some (code, header w)) (body w)
  end.

(** [w.Write(data)]; the first write sends status 200 if no status
    was written before. *)
Definition Write (data : bytes) (w : ResponseWriter) : ResponseWriter :=
  let w' := WriteHeader StatusOK w in
  mkResponseWriter (header w') (written w') (body w' +:+ data).

Definition status (w : ResponseWriter) : option nat := fst <$> written w.

Definition sentHeader (w : ResponseWriter) (key : string) : string :=
  match written w with
  | Some (_, h) => Header_Get h key
  | None => EmptyString
  end.

(** A response received by an [http.Client]. *)
Record Response := mkResponse {
  StatusCode : nat;
  RespHeader : Header;
  RespBody : bytes
}.

End http.

(* ===================================================================== *)
(** ** encoding/json, as an interface *)
(* ===================================================================== *)

Module json.

(** [json.Unmarshal(data, &v)] for a target [v] of type [T]: the new
    value of [v] and the error. *)
Class Unmarshaler (T : Type) := Unmarshal : bytes -> T -> T * option error.

(** [json.Marshal(v)]; the relay drops the error. *)
Class Marshaler (T : Type) := Marshal : T -> bytes.

End json.

(* ===================================================================== *)
(** ** The relay *)
(* ===================================================================== *)

Record EnvConfig := mkEnvConfig {
  ApiKey : string;
  MobileKey : option string;
  EnvId : option string;
  Prefix : string
}.

Record MainConfig := mkMainConfig {
  ExitOnError : bool;
  IgnoreConnectionErrors : bool;
  StreamUri : string;
  BaseUri : string;
  Port : Z;
  HeartbeatIntervalSecs : Z
}.

Record EventsConfig := mkEventsConfig {
  EventsUri : string;
  SendEvents : bool;
  FlushIntervalSecs : Z;
  SamplingInterval : Z;
  Capacity : Z
}.

(** The [Redis] section; its port is [RedisPort] here, the field name
    [Port] being taken by [MainConfig]. *)
Record RedisConfig := mkRedisConfig {
  Host : string;
  RedisPort : Z;
  LocalTtl : option Z
}.

Record Config := mkConfig {
  Main : MainConfig;
  Events : EventsConfig;
  Redis : RedisConfig;
  Environment : gmap string EnvConfig
}.

Record StatusEntry := mkStatusEntry { Status : string }.

Record errorJson := mkErrorJson { Message : string }.

(** The body of the [/status] reply before it is marshalled: the map
    with the two keys "environments" and "status". *)
Record statusResponse := mkStatusResponse {
  environments : gmap string StatusEntry;
  status : string
}.

(** The [http.Handler] values the relay stores: the stream handler of a
    publisher channel and the event relay handler of an environment. *)
Inductive Handler : Type :=
| publisherHandler (channel : string)
| relayHandler (apiKey : string) (c : Config).

(** An outbound request of the goals passthrough. *)
Record outboundRequest := mkOutbound {
  outMethod : string;
  outURL : string;
  outAuthorization : string
}.

Section Relay.

(** [ld.User] and the result type of [AllFlags] belong to the SDK.
    The relay reads one field of a user, [Key], and creates users only
    as the zero value [var user ld.User]. *)
Context {User FlagValues : Type}.
Variable Key : User -> option string.
Variable zeroUser : User.

(** A pointer to [ld.LDClient], the one implementation of [flagReader]
    the program stores; the type assertion in [getStatus] therefore
    always succeeds.  [sdkKey] is the key the client was made with,
    [Initialized] the client's answer at the time of the request. *)
Record LDClient := mkLDClient {
  sdkKey : string;
  Initialized : bool;
  AllFlags : User -> FlagValues
}.

(** A value of interface type [flagReader]; [None] is nil. *)
Definition flagReader : Type := option LDClient.

(** The value stored in the request context under "context". *)
Inductive contextValue : Type :=
| clientContextImpl (client : flagReader)
| handlerContextImpl (handler : option Handler).

Definition Request : Type := http.Request contextValue.

(** Calls that leave the handler, in the order they are made. *)
Inductive Event : Type :=
| CallAllFlags (client : LDClient) (user : User)
| CallServeHTTP (handler : Handler)
| CallDo (ldReq : outboundRequest).

Record World := mkWorld {
  resp : http.ResponseWriter;
  trace : list Event
}.

(** A handler returns, or panics (nil dereference, index out of
    range, failed type assertion). *)
Inductive Result : Type :=
| Done (σ : World)
| Panic (reason : string).

Definition HandlerFunc : Type := Request -> World -> Result.

Definition onResp (f : http.ResponseWriter -> http.ResponseWriter) (σ : World) : World :=
  mkWorld (f (resp σ)) (trace σ).

Definition emit (e : Event) (σ : World) : World :=
  mkWorld (resp σ) (trace σ ++ [e]).

(** What lies outside the program: the stored handlers' [ServeHTTP],
    whether [http.NewRequest] accepts a URL, and the answer of the
    upstream to [httpClient.Do].  [getGoals] builds its caching
    transport anew on every call, so the cache is empty and the
    request always goes upstream. *)
Variable ServeHTTP : Handler -> HandlerFunc.
Variable NewRequest_ok : string -> bool.
Variable Do : outboundRequest -> http.Response + error.

Context `{!json.Unmarshaler User, !json.Unmarshaler (option User)}.
Context `{!json.Marshaler errorJson, !json.Marshaler FlagValues,
          !json.Marshaler statusResponse}.

Record clientMuxHandler := mkClientMuxHandler {
  clients : gmap string flagReader;
  baseUri : string
}.

Record eventsMuxHandler := mkEventsMuxHandler {
  eventHandlers : gmap string (option Handler)
}.

Record streamMuxHandler := mkStreamMuxHandler {
  streamHandlers : gmap string (option Handler)
}.

(** [m[key]] on a Go map of interface values: nil when the key is
    missing. *)
Definition index {A} (m : gmap string (option A)) (key : string) : option A :=
  mjoin (m !! key).

Definition fetchAuthToken (req : Request) : string + error :=
  let authHdr := http.Header_Get (http.ReqHeader req) "Authorization" in
  match regexp.FindStringSubmatch uuidHeaderPattern authHdr with
  | Some [_; token] => inl token
  | _ => inr "No valid token found"
  end.

Definition getStatus (m : clientMuxHandler) : HandlerFunc := fun req σ =>
  let σ := onResp (http.SetHeader "Content-Type" "application/json") σ in
  let '(envs, healthy) :=
    map_fold (fun (k : string) (v : flagReader) (acc : gmap string StatusEntry * bool) =>
                match v with
                | None => (<[k := mkStatusEntry "disconnected"]> (fst acc), false)
                | Some client =>
                    if Initialized client
                    then (<[k := mkStatusEntry "connected"]> (fst acc), snd acc)
                    else (<[k := mkStatusEntry "disconnected"]> (fst acc), false)
                end)
             (∅, true) (clients m) in
  let resp := mkStatusResponse envs (if healthy then "healthy" else "degraded") in
  Done (onResp (http.Write (json.Marshal resp)) σ).

(** The [authKeyMap interface{}] argument of [authorizeMethod], by the
    cases of its type switch. *)
Inductive authKeyMap : Type :=
| flagReaderMap (m : gmap string flagReader)
| handlerMap (m : gmap string (option Handler))
| otherMap.

(** The non-nil [interface{}] that [authorizeMethod] returns. *)
Inductive authContext : Type :=
| ctxFlagReader (client : LDClient)
| ctxHandler (handler : Handler).

Definition authorizeMethod (authKeyMap0 : authKeyMap) (σ : World) (req : Request)
  : (authContext + error) * World :=
  match fetchAuthToken req with
  | inr _ =>
      (inr "Unauthorized", onResp (http.WriteHeader http.StatusUnauthorized) σ)
  | inl authKey =>
      let unauthorized :=
        (inr "Unauthorized",
         onResp (http.Write "ld-relay is not configured for the provided key")
                (onResp (http.WriteHeader http.StatusUnauthorized) σ)) in
      match authKeyMap0 with
      | flagReaderMap m =>
          match index m authKey with
          | Some client => (inl (ctxFlagReader client), σ)
          | None => unauthorized
          end
      | handlerMap m =>
          match index m authKey with
          | Some handler => (inl (ctxHandler handler), σ)
          | None => unauthorized
          end
      | otherMap => (inr "Unknown error", σ)
      end
  end.

Definition clientMuxHandler_authorizeMethod (m : clientMuxHandler) (next : HandlerFunc)
  : HandlerFunc := fun req σ =>
  match authorizeMethod (flagReaderMap (clients m)) σ req with
  | (inr _, σ) => Done σ
  | (inl (ctxFlagReader client), σ) =>
      next (http.WithValue req (clientContextImpl (Some client))) σ
  | (inl (ctxHandler _), _) => Panic "interface conversion"
  end.

Definition eventsMuxHandler_authorizeMethod (m : eventsMuxHandler) (next : HandlerFunc)
  : HandlerFunc := fun req σ =>
  match authorizeMethod (handlerMap (eventHandlers m)) σ req with
  | (inr _, σ) => Done σ
  | (inl (ctxHandler handler), σ) =>
      next (http.WithValue req (handlerContextImpl (Some handler))) σ
  | (inl (ctxFlagReader _), _) => Panic "interface conversion"
  end.

Definition streamMuxHandler_authorizeMethod (m : streamMuxHandler) (next : HandlerFunc)
  : HandlerFunc := fun req σ =>
  match authorizeMethod (handlerMap (streamHandlers m)) σ req with
  | (inr _, σ) => Done σ
  | (inl (ctxHandler handler), σ) =>
      next (http.WithValue req (handlerContextImpl (Some handler))) σ
  | (inl (ctxFlagReader _), _) => Panic "interface conversion"
  end.

Definition findEnvironment (m : clientMuxHandler) (next : HandlerFunc)
  : HandlerFunc := fun req σ =>
  let σ := onResp (http.SetHeader "Access-Control-Allow-Origin" "*") σ in
  let envId := http.Var req "envId" in
  match index (clients m) envId with
  | None =>
      Done (onResp (http.Write ("ld-relay is not configured for environment id " +:+ envId))
                   (onResp (http.WriteHeader http.StatusNotFound) σ))
  | Some client =>
      next (http.WithValue req (clientContextImpl (Some client))) σ
  end.

Definition getGoals (m : clientMuxHandler) : HandlerFunc := fun req σ =>
  let σ := onResp (http.SetHeader "Access-Control-Allow-Origin" "*") σ in
  let envId := http.Var req "envId" in
  let url := baseUri m +:+ "/sdk/goals/" +:+ envId in
  if NewRequest_ok url then
    let ldReq := mkOutbound "GET" url
                   (http.Header_Get (http.ReqHeader req) "Authorization") in
    let σ := emit (CallDo ldReq) σ in
    match Do ldReq with
    | inr _ =>
        Done (onResp (http.WriteHeader http.StatusInternalServerError) σ)
    | inl res =>
        match http.RespHeader res !! "Content-Type" with
        | Some (contentType :: _) =>
            let σ := onResp (http.SetHeader "Content-Type" contentType) σ in
            let σ := onResp (http.WriteHeader (http.StatusCode res)) σ in
            Done (onResp (http.Write (http.RespBody res)) σ)
        | _ => Panic "index out of range"
        end
    end
  else Panic "nil pointer dereference".

Definition serveHandler : HandlerFunc := fun req σ =>
  match http.Value req with
  | Some (handlerContextImpl (Some handler)) =>
      ServeHTTP handler req (emit (CallServeHTTP handler) σ)
  | Some (handlerContextImpl None) => Panic "nil pointer dereference"
  | _ => Panic "interface conversion"
  end.

Definition ErrorJsonMsg (msg : string) : bytes :=
  json.Marshal (mkErrorJson msg).

(** Returns a pointer to [ld.User] and an error; [None] in the first
    component is the nil pointer. *)
Definition UserV2FromBase64 (base64User : string) : option User * option error :=
  match base64urlDecode base64User with
  | inr _ => (None, Some "User part of url path did not decode as valid base64")
  | inl idStr =>
      let '(user, jsonErr) := json.Unmarshal idStr zeroUser in
      match jsonErr with
      | Some _ =>
          (None, Some "User part of url path did not decode to valid user as json")
      | None =>
          match Key user with
          | None => (None, Some "User must have a 'key' attribute")
          | Some _ => (Some user, None)
          end
      end
  end.

Definition evaluateAllFeatureFlags : HandlerFunc := fun req σ =>
  let finish (decoded : option User * option error) : Result :=
    let '(user, userDecodeErr) := decoded in
    match userDecodeErr with
    | Some err =>
        Done (onResp (http.Write (ErrorJsonMsg err))
                     (onResp (http.WriteHeader http.StatusBadRequest) σ))
    | None =>
        match http.Value req with
        | Some (clientContextImpl client) =>
            match user with
            | None => Panic "nil pointer dereference"
            | Some u =>
                match client with
                | None => Panic "nil pointer dereference"
                | Some c =>
                    let σ := emit (CallAllFlags c u) σ in
                    let result := json.Marshal (AllFlags c u) in
                    let σ := onResp (http.SetHeader "Content-Type" "application/json") σ in
                    let σ := onResp (http.WriteHeader http.StatusOK) σ in
                    Done (onResp (http.Write result) σ)
                end
            end
        | _ => Panic "interface conversion"
        end
    end in
  if decide (http.Method req = "REPORT") then
    if decide (http.Header_Get (http.ReqHeader req) "Content-Type" = "application/json")
    then finish (json.Unmarshal (http.Body req) (None : option User))
    else
      Done (onResp (http.Write "Content-Type must be application/json.")
                   (onResp (http.WriteHeader http.StatusUnsupportedMediaType) σ))
  else
    finish (UserV2FromBase64 (http.Var req "user")).

(** *** Startup *)

(** The five maps [main] creates and shares with the handlers. *)
Record registry := mkRegistry {
  main_clients : gmap string flagReader;
  main_mobileClients : gmap string flagReader;
  main_clientSideClients : gmap string flagReader;
  main_handlers : gmap string (option Handler);
  main_eventHandlers : gmap string (option Handler)
}.

(** The maps before the environments start: every server key is
    registered with a nil client. *)
Definition initialRegistry (c : Config) : registry :=
  mkRegistry
    (map_fold (fun (_ : string) (envConfig : EnvConfig) (acc : gmap string flagReader) =>
                 <[ApiKey envConfig := None]> acc) ∅ (Environment c))
    ∅ ∅ ∅ ∅.

Definition nonEmpty (s : option string) : option string :=
  match s with
  | Some EmptyString | None => None
  | Some k => Some k
  end.

Inductive startResult : Type :=
| Exit (code : nat)
| Running (r : registry).

(** The body of the goroutine started for one environment, after
    [ld.MakeCustomClient] has returned [(client, err)].  A goroutine
    writes to the shared maps at the keys of its own environment only;
    the model runs its body on the maps as it finds them.  The feature
    store it builds first belongs to the SDK client and does not
    appear. *)
Definition startEnvironment (c : Config) (envConfig : EnvConfig)
    (client : LDClient) (err : option error) (r : registry) : startResult :=
  let clients1 := <[ApiKey envConfig := Some client]> (main_clients r) in
  let mobileClients1 :=
    match nonEmpty (MobileKey envConfig) with
    | Some k => <[k := Some client]> (main_mobileClients r)
    | None => main_mobileClients r
    end in
  let clientSideClients1 :=
    match nonEmpty (EnvId envConfig) with
    | Some k => <[k := Some client]> (main_clientSideClients r)
    | None => main_clientSideClients r
    end in
  if bool_decide (err <> None) && negb (IgnoreConnectionErrors (Main c)) then
    if ExitOnError (Main c) then Exit 1
    else Running (mkRegistry clients1 mobileClients1 clientSideClients1
                             (main_handlers r) (main_eventHandlers r))
  else
    let handlers1 :=
      <[ApiKey envConfig := Some (publisherHandler (ApiKey envConfig))]> (main_handlers r) in
    let eventHandlers1 :=
      if SendEvents (Events c)
      then <[ApiKey envConfig := Some (relayHandler (ApiKey envConfig) c)]>
             (main_eventHandlers r)
      else main_eventHandlers r in
    Running (mkRegistry clients1 mobileClients1 clientSideClients1 handlers1 eventHandlers1).

(** The routes [main] registers, and the handler of each. *)
Inductive route : Type :=
| POST_bulk
| GET_status
| GET_flags
| GET_sdk_goals
| GET_sdk_eval_users
| REPORT_sdk_eval_user
| GET_sdk_eval_env_users
| REPORT_sdk_eval_env_user
| GET_msdk_eval_users
| REPORT_msdk_eval_user.

Definition router (c : Config) (r : registry) (rt : route) : HandlerFunc :=
  let bulkEventHandler := mkEventsMuxHandler (main_eventHandlers r) in
  let streamHandler := mkStreamMuxHandler (main_handlers r) in
  let clientsHandler := mkClientMuxHandler (main_clients r) EmptyString in
  let mobileClientsHandler := mkClientMuxHandler (main_mobileClients r) EmptyString in
  let clientSideClientsHandler :=
    mkClientMuxHandler (main_clientSideClients r) (BaseUri (Main c)) in
  match rt with
  | POST_bulk => eventsMuxHandler_authorizeMethod bulkEventHandler serveHandler
  | GET_status => getStatus clientsHandler
  | GET_flags => streamMuxHandler_authorizeMethod streamHandler serveHandler
  | GET_sdk_goals =>
      findEnvironment clientSideClientsHandler (getGoals clientSideClientsHandler)
  | GET_sdk_eval_users | REPORT_sdk_eval_user =>
      clientMuxHandler_authorizeMethod clientsHandler evaluateAllFeatureFlags
  | GET_sdk_eval_env_users | REPORT_sdk_eval_env_user =>
      findEnvironment clientSideClientsHandler evaluateAllFeatureFlags
  | GET_msdk_eval_users | REPORT_msdk_eval_user =>
      clientMuxHandler_authorizeMethod mobileClientsHandler evaluateAllFeatureFlags
  end.

End Relay.

(* ===================================================================== *)
(** ** Vocabulary of the statements and proofs below *)
(* ===================================================================== *)

Module regexp_aux.
Import regexp.

(** Patterns without [^] and without groups: what they consume does
    not depend on the offset or on the groups captured before. *)
Fixpoint plain (re : Regexp) : bool :=
  match re with
  | OpBeginText | OpCapture _ _ => false
  | OpQuest sub | OpRepeat _ sub => plain sub
  | OpConcat sub1 sub2 => plain sub1 && plain sub2
  | _ => true
  end.

(** The inputs left after [re] has matched at the front of [s], in
    preference order. *)
Definition remainders (re : Regexp) (s : string) : list string :=
  map input (exec re (mkThread 0 s [])).

(** The thread [t] after it has consumed its input down to [rest]. *)
Definition resume (t : thread) (rest : string) : thread :=
  mkThread (pos t + (String.length (input t) - String.length rest)) rest (cap t).

(** [re] matches the whole of [s]. *)
Definition matchesAll (re : Regexp) (s : string) : bool :=
  existsb base64.atEnd (remainders re s).

(** What a matcher consumes is a prefix of its input, and the offset
    advances by its length. *)
Definition Consumes (m : thread -> list thread) : Prop :=
  forall t t', In t' (m t) ->
    exists c, input t = c +:+ input t' /\ pos t' = (pos t + String.length c)%nat.

(** The matcher neither reads the offset nor touches the groups. *)
Definition Plain (m : thread -> list thread) : Prop :=
  forall t, m t = map (resume t) (map input (m (mkThread 0 (input t) []))).

(** The thread that has matched all the input of [t] as group 1. *)
Definition accepted (t : thread) : thread :=
  mkThread (pos t + String.length (input t)) EmptyString ((1%nat, input t) :: cap t).

End regexp_aux.

(** The end of the header pattern: the capturing group followed by [$]. *)
Definition tokenToEnd : regexp.Regexp :=
  regexp.concat [regexp.OpCapture 1 tokenPattern; regexp.OpEndText].

(** A string of the shape of a token: the group of [uuidHeaderPattern]
    matches all of it. *)
Definition tokenShaped (s : string) : bool :=
  regexp_aux.matchesAll tokenPattern s.

(** [s] without the prefix [p], if it has it. *)
Fixpoint stripPrefix (p s : string) : option string :=
  match p, s with
  | EmptyString, _ => Some s
  | String a p', String b s' => if Ascii.eqb a b then stripPrefix p' s' else None
  | String _ _, EmptyString => None
  end.

(** The token a header value carries: the value itself, or what follows
    the prefix [api_key ], when that is of the shape of a token. *)
Definition headerToken (authHdr : string) : option string :=
  match stripPrefix "api_key " authHdr with
  | Some rest => if tokenShaped rest then Some rest else None
  | None => if tokenShaped authHdr then Some authHdr else None
  end.

(** A request that carries nothing but an [Authorization] header. *)
Definition authRequest {V : Type} (authHdr : string) : http.Request V :=
  http.mkRequest "GET" {[ "Authorization" := [authHdr] ]} EmptyString ∅ None.

(** What [getStatus] reports for one entry of the client map. *)
Definition connected {User FlagValues : Type} (v : flagReader (User := User) (FlagValues := FlagValues)) : bool :=
  match v with
  | Some client => Initialized client
  | None => false
  end.

Definition statusEntryOf {User FlagValues : Type} (v : flagReader (User := User) (FlagValues := FlagValues)) : StatusEntry :=
  mkStatusEntry (if connected v then "connected" else "disconnected").

(** The three handlers that authorize by credential, and the map each
    looks the token up in. *)
Inductive authorizer {User FlagValues : Type} : Type :=
| byClient (m : clientMuxHandler (User := User) (FlagValues := FlagValues))
| byEvents (m : eventsMuxHandler)
| byStream (m : streamMuxHandler).

Definition authorize {User FlagValues : Type} (a : authorizer)
    (next : HandlerFunc (User := User) (FlagValues := FlagValues)) : HandlerFunc :=
  match a with
  | byClient m => clientMuxHandler_authorizeMethod m next
  | byEvents m => eventsMuxHandler_authorizeMethod m next
  | byStream m => streamMuxHandler_authorizeMethod m next
  end.

Definition registered {User FlagValues : Type}
    (a : authorizer (User := User) (FlagValues := FlagValues)) (key : string) : bool :=
  match a with
  | byClient m => bool_decide (is_Some (index (clients m) key))
  | byEvents m => bool_decide (is_Some (index (eventHandlers m) key))
  | byStream m => bool_decide (is_Some (index (streamHandlers m) key))
  end.


(** The handler has answered with status [code], added [text] to the
    body, and made no call. *)
Definition replied {User FlagValues : Type} (code : nat) (text : string)
    (σ σ' : World (User := User) (FlagValues := FlagValues)) : Prop :=
  http.status (resp σ') = Some code /\
  http.body (resp σ') = http.body (resp σ) +:+ text /\
  trace σ' = trace σ.

(** The body of the 401 reply: empty when no token was found in the
    header, the explanation when the token is not in the map. *)
Definition unauthorizedBody (token : string + error) : string :=
  match token with
  | inl _ => "ld-relay is not configured for the provided key"
  | inr _ => EmptyString
  end.

(** The loop of [getStatus] over the client map: the entries and the
    [healthy] flag it ends with. *)
Definition statusLoop {User FlagValues : Type}
    (m : gmap string (flagReader (User := User) (FlagValues := FlagValues)))
  : gmap string StatusEntry * bool :=
  map_fold (fun (k : string) (v : flagReader) (acc : gmap string StatusEntry * bool) =>
              match v with
              | None => (<[k := mkStatusEntry "disconnected"]> (fst acc), false)
              | Some client =>
                  if Initialized client
                  then (<[k := mkStatusEntry "connected"]> (fst acc), snd acc)
                  else (<[k := mkStatusEntry "disconnected"]> (fst acc), false)
              end)
           (∅, true) m.

(** The request [getGoals] sends upstream for an inbound request. *)
Definition goalsRequest {User FlagValues : Type}
    (m : clientMuxHandler (User := User) (FlagValues := FlagValues))
    (req : Request (User := User) (FlagValues := FlagValues)) : outboundRequest :=
  mkOutbound "GET" (baseUri m +:+ "/sdk/goals/" +:+ http.Var req "envId")
             (http.Header_Get (http.ReqHeader req) "Authorization").

(* ===================================================================== *)
(** ** A reference decoder for the scenarios *)
(* ===================================================================== *)

(** The scenarios below run the handlers on concrete requests and need
    concrete instances of the SDK types and of encoding/json.  The user
    has the one attribute the relay reads; the decoder covers the
    documents [null] and objects whose members are all named [key] with
    a string or [null] value, the strings being ASCII without escapes,
    and decodes them as encoding/json does.  Any other document is refused with an
    error; no statement below runs the decoder on one. *)
Module sample.

Definition dq : ascii := "034"%char.
Definition backslash : ascii := "092"%char.

Definition quoted (s : string) : string := String dq (s +:+ String dq EmptyString).

Record User := mkUser { Key : option string }.

Definition zeroUser : User := mkUser None.

Definition isSpace (c : ascii) : bool :=
  Ascii.eqb c " " || Ascii.eqb c "009" || Ascii.eqb c "010" || Ascii.eqb c "013".

Fixpoint skipSpace (s : string) : string :=
  match s with
  | String c rest => if isSpace c then skipSpace rest else s
  | EmptyString => s
  end.

(** The characters of a string literal up to its closing quote, and
    what follows it. *)
Fixpoint readString (s : string) : option (string * string) :=
  match s with
  | EmptyString => None
  | String c rest =>
      if Ascii.eqb c dq then Some (EmptyString, rest)
      else if Ascii.eqb c backslash || (N_of_ascii c <? 32)%N || (127 <? N_of_ascii c)%N
      then None
      else match readString rest with
           | Some (v, rest') => Some (String c v, rest')
           | None => None
           end
  end.

(** A string literal or [null]. *)
Definition readValue (s : string) : option (option string * string) :=
  match stripPrefix "null" s with
  | Some rest => Some (None, rest)
  | None =>
      match s with
      | String c rest =>
          if Ascii.eqb c dq
          then match readString rest with
               | Some (v, rest') => Some (Some v, rest')
               | None => None
               end
          else None
      | EmptyString => None
      end
  end.

(** The members of an object after its opening brace, up to and
    including the closing brace. *)
Fixpoint readMembers (fuel : nat) (s : string)
  : option (list (string * option string) * string) :=
  match fuel, s with
  | S fuel', String c rest =>
      if Ascii.eqb c dq then
        match readString rest with
        | Some (name, rest1) =>
            match skipSpace rest1 with
            | String ":" rest2 =>
                match readValue (skipSpace rest2) with
                | Some (v, rest3) =>
                    match skipSpace rest3 with
                    | String "," rest4 =>
                        match readMembers fuel' (skipSpace rest4) with
                        | Some (ms, rest5) => Some ((name, v) :: ms, rest5)
                        | None => None
                        end
                    | String "}" rest4 => Some ([(name, v)], rest4)
                    | _ => None
                    end
                | None => None
                end
            | _ => None
            end
        | None => None
        end
      else None
  | _, _ => None
  end.

Inductive document : Type :=
| Null
| Object (members : list (string * option string)).

Definition readDocument (data : bytes) : option document :=
  let s := skipSpace data in
  match stripPrefix "null" s with
  | Some rest => if base64.atEnd (skipSpace rest) then Some Null else None
  | None =>
      match s with
      | String "{" rest =>
          match skipSpace rest with
          | String "}" rest' =>
              if base64.atEnd (skipSpace rest') then Some (Object []) else None
          | members =>
              match readMembers (String.length members) members with
              | Some (ms, rest') =>
                  if base64.atEnd (skipSpace rest') then Some (Object ms) else None
              | None => None
              end
          end
      | _ => None
      end
  end.

(** Members are stored in order, so the last [key] wins. *)
Definition setMembers (ms : list (string * option string)) (u : User) : User :=
  fold_left (fun (_ : User) (m : string * option string) => mkUser (snd m)) ms u.

Definition inFragment (ms : list (string * option string)) : bool :=
  forallb (fun m => String.eqb (fst m) "key") ms.

Definition refused : error := "json: document outside the fragment of the reference decoder".

#[export] Instance Unmarshal_User : json.Unmarshaler User := fun data user =>
  match readDocument data with
  | Some Null => (user, None)
  | Some (Object ms) =>
      if inFragment ms then (setMembers ms user, None) else (user, Some refused)
  | None => (user, Some refused)
  end.

(** A pointer target: [null] sets it to nil, an object is decoded
    into the user it points to, allocated first if it is nil. *)
#[export] Instance Unmarshal_UserPtr : json.Unmarshaler (option User) := fun data user =>
  match readDocument data with
  | Some Null => (None, None)
  | Some (Object ms) =>
      if inFragment ms
      then (Some (setMembers ms (default zeroUser user)), None)
      else (user, Some refused)
  | None => (user, Some refused)
  end.

Definition hexDigit (n : N) : ascii :=
  match String.get (N.to_nat n) "0123456789abcdef" with
  | Some c => c
  | None => "0"%char
  end.

(** The encoding of an ASCII string value: quote, backslash, control
    characters and the HTML characters are escaped; other bytes are
    copied. *)
Fixpoint escape (s : string) : string :=
  match s with
  | EmptyString => EmptyString
  | String c rest =>
      let n := N_of_ascii c in
      (if Ascii.eqb c dq || Ascii.eqb c backslash
       then String backslash (String c EmptyString)
       else if Ascii.eqb c "010" then String backslash "n"
       else if Ascii.eqb c "013" then String backslash "r"
       else if Ascii.eqb c "009" then String backslash "t"
       else if (n <? 32)%N || Ascii.eqb c "<" || Ascii.eqb c ">" || Ascii.eqb c "&"
            then String backslash "u00"
                 +:+ String (hexDigit (N.shiftr n 4))
                       (String (hexDigit (N.land n 15)) EmptyString)
       else String c EmptyString) +:+ escape rest
  end.

#[export] Instance Marshal_errorJson : json.Marshaler errorJson := fun v =>
  "{" +:+ quoted "message" +:+ ":" +:+ quoted (escape (Message v)) +:+ "}".

(** Flag values in the scenarios are given by their JSON text. *)
Definition FlagValues : Type := string.

#[export] Instance Marshal_FlagValues : json.Marshaler FlagValues := fun v => v.

(** A client of an environment without flags: [AllFlags] is nil, which
    marshals to [null], until the client is initialised, and the empty
    map afterwards. *)
Definition client (key : string) (initialized : bool)
  : LDClient (User := User) (FlagValues := FlagValues) :=
  mkLDClient key initialized (fun _ : User => if initialized then "{}" else "null").

End sample.

(** The data of the scenarios. *)
Module scenario.
Import sample.

Definition Request : Type :=
  Request (User := sample.User) (FlagValues := sample.FlagValues).

Definition World : Type :=
  World (User := sample.User) (FlagValues := sample.FlagValues).

Definition world0 : World := mkWorld http.NewResponseWriter [].

Definition evaluate : HandlerFunc (User := sample.User) (FlagValues := sample.FlagValues) :=
  evaluateAllFeatureFlags sample.Key sample.zeroUser.

(** A server key, and the same key behind the prefix. *)
Definition sdkKey : string := "sdk-12345678-1234-4234-8234-123456789abc".
Definition uuid : string := "12345678-1234-4234-8234-123456789abc".

Definition client : LDClient (User := sample.User) (FlagValues := sample.FlagValues) :=
  sample.client sdkKey false.

Definition authRequest (authHdr : string) : Request := authRequest authHdr.

(** [REPORT /sdk/eval/user], past authorization. *)
Definition report (contentType : string) (body : bytes) : Request :=
  http.mkRequest "REPORT" {[ "Content-Type" := [contentType] ]} body ∅
                 (Some (clientContextImpl (Some client))).

(** [GET /sdk/eval/users/{user}] with the server key. *)
Definition evalUsers (user : string) : Request :=
  http.mkRequest "GET" {[ "Authorization" := [sdkKey] ]} EmptyString
                 {[ "user" := user ]} None.

(** [GET /sdk/goals/{envId}]. *)
Definition goals (envId : string) : Request :=
  http.mkRequest "GET" {[ "Authorization" := [sdkKey] ]} EmptyString
                 {[ "envId" := envId ]} None.

Definition browser : clientMuxHandler (User := sample.User) (FlagValues := sample.FlagValues) :=
  mkClientMuxHandler ∅ "https://app.launchdarkly.com".

(** An upstream that answers 204 with no header at all. *)
Definition noContent (_ : outboundRequest) : http.Response + error :=
  inl (http.mkResponse 204 ∅ EmptyString).

(** One environment, neither [exitOnError] nor
    [ignoreConnectionErrors]. *)
Definition production : EnvConfig := mkEnvConfig sdkKey None None EmptyString.

Definition config : Config :=
  mkConfig
    (mkMainConfig false false "https://stream.launchdarkly.com"
                  "https://app.launchdarkly.com" 8030%Z 0%Z)
    (mkEventsConfig EmptyString false 0%Z 0%Z 0%Z)
    (mkRedisConfig EmptyString 0%Z (Some 30000%Z))
    {[ "production" := production ]}.

(** The maps as [main] hands them to the goroutines. *)
Definition registry0 : registry (User := sample.User) (FlagValues := sample.FlagValues) :=
  initialRegistry config.

Definition timeout : error :=
  "Timeout encountered waiting for LaunchDarkly client initialization".

(** The JSON user with the key [u1], and its base64url form. *)
Definition userJson : bytes :=
  "{" +:+ sample.quoted "key" +:+ ":" +:+ sample.quoted "u1" +:+ "}".

End scenario.

(* ===================================================================== *)
(** ** The rest of the file: version string, refused bytes and startup *)
(* ===================================================================== *)

Module strings_pkg.

(** [strings.Split(s, sep)] for a separator of one byte: the pieces
    of [s] between the separators, one more than there are
    separators. *)
Fixpoint Split (s : string) (sep : ascii) : list string :=
  match s with
  | EmptyString => [EmptyString]
  | String c rest =>
      if Ascii.eqb c sep then EmptyString :: Split rest sep
      else match Split rest sep with
           | piece :: pieces => String c piece :: pieces
           | [] => [String c EmptyString]
           end
  end.

End strings_pkg.

Definition formatVersion (version : string) : string :=
  match strings_pkg.Split version "+" with
  | [v; build] => v +:+ " (build " +:+ build +:+ ")"
  | _ => version
  end.

(** The number of bytes [c] in [s]. *)
Fixpoint countByte (c : ascii) (s : string) : nat :=
  match s with
  | EmptyString => 0
  | String a rest => (if Ascii.eqb a c then 1 else 0) + countByte c rest
  end.

(** The numbers of bytes a pattern can consume. *)
Fixpoint widths (re : regexp.Regexp) : list nat :=
  match re with
  | regexp.OpLiteral _ | regexp.OpCharClass _ => [1%nat]
  | regexp.OpCapture _ sub => widths sub
  | regexp.OpQuest sub => widths sub ++ [0%nat]
  | regexp.OpRepeat n sub =>
      Nat.iter n (fun ws => flat_map (fun w => map (Nat.add w) ws) (widths sub)) [0%nat]
  | regexp.OpConcat sub1 sub2 =>
      flat_map (fun w => map (Nat.add w) (widths sub2)) (widths sub1)
  | _ => [0%nat]
  end.

(** A byte the base64url decoders refuse wherever it stands: not in the
    alphabet, not a line break, not the padding character. *)
Definition foreign (c : ascii) : bool :=
  negb (bool_decide (is_Some (base64.decodeMap base64.URLEncoding c)))
  && negb (base64.isNewline c) && negb (Ascii.eqb c "=").

Fixpoint hasForeign (s : string) : bool :=
  match s with
  | EmptyString => false
  | String c rest => foreign c || hasForeign rest
  end.

(** The client failed and the failure is not ignored. *)
Definition failedStart (c : Config) (err : option error) : bool :=
  bool_decide (err <> None) && negb (IgnoreConnectionErrors (Main c)).

(** The start of an environment ends the process. *)
Definition fatal (c : Config) (err : option error) : bool :=
  failedStart c err && ExitOnError (Main c).

Section Startup.

Context {User FlagValues : Type}.

(** The maps the goroutine of an environment leaves when it does not
    exit. *)
Definition registerEnvironment (c : Config) (envConfig : EnvConfig)
    (client : LDClient (User := User) (FlagValues := FlagValues)) (err : option error)
    (r : registry) : registry :=
  mkRegistry
    (<[ApiKey envConfig := Some client]> (main_clients r))
    match nonEmpty (MobileKey envConfig) with
    | Some k => <[k := Some client]> (main_mobileClients r)
    | None => main_mobileClients r
    end
    match nonEmpty (EnvId envConfig) with
    | Some k => <[k := Some client]> (main_clientSideClients r)
    | None => main_clientSideClients r
    end
    (if failedStart c err then main_handlers r
     else <[ApiKey envConfig := Some (publisherHandler (ApiKey envConfig))]>
            (main_handlers r))
    (if failedStart c err then main_eventHandlers r
     else if SendEvents (Events c)
          then <[ApiKey envConfig := Some (relayHandler (ApiKey envConfig) c)]>
                 (main_eventHandlers r)
          else main_eventHandlers r).

End Startup.

(** Every match of [m] advances the offset by one of the widths [ws]. *)
Definition Within (ws : list nat) (m : regexp.thread -> list regexp.thread) : Prop :=
  forall t t', In t' (m t) -> In (regexp.pos t' - regexp.pos t)%nat ws.

(** Further data of the scenarios. *)
Module scenario_more.
Import sample.

(** encoding/json on the body of the [/status] reply: the members of
    a map in the order of their keys, compared byte by byte. *)
Fixpoint insertEntry (e : string * StatusEntry) (l : list (string * StatusEntry))
    : list (string * StatusEntry) :=
  match l with
  | [] => [e]
  | e' :: rest =>
      if String.leb (fst e) (fst e') then e :: l else e' :: insertEntry e rest
  end.

Definition sortedEntries (m : gmap string StatusEntry) : list (string * StatusEntry) :=
  fold_right insertEntry [] (map_to_list m).

Definition member (e : string * StatusEntry) : string :=
  sample.quoted (sample.escape (fst e)) +:+ ":{" +:+ sample.quoted "status" +:+ ":"
  +:+ sample.quoted (sample.escape (Status (snd e))) +:+ "}".

Fixpoint commaSeparated (l : list string) : string :=
  match l with
  | [] => EmptyString
  | [s] => s
  | s :: rest => s +:+ "," +:+ commaSeparated rest
  end.

#[export] Instance Marshal_statusResponse : json.Marshaler statusResponse := fun v =>
  "{" +:+ sample.quoted "environments" +:+ ":{"
  +:+ commaSeparated (map member (sortedEntries (environments v))) +:+ "},"
  +:+ sample.quoted "status" +:+ ":" +:+ sample.quoted (sample.escape (status v)) +:+ "}".

(** The server map and the stream handlers once the production
    environment has started. *)
Definition registered : gmap string (flagReader (User := sample.User) (FlagValues := sample.FlagValues)) :=
  {[ scenario.sdkKey := Some scenario.client ]}.

Definition publishers : gmap string (option Handler) :=
  {[ scenario.sdkKey := Some (publisherHandler scenario.sdkKey) ]}.

(** A stored handler that writes nothing. *)
Definition silent (_ : Handler) : HandlerFunc (User := sample.User) (FlagValues := sample.FlagValues) :=
  fun _ σ => Done σ.

(** A browser environment. *)
Definition envId : string := "5a1b2c3d4e5f".

Definition browser : clientMuxHandler (User := sample.User) (FlagValues := sample.FlagValues) :=
  mkClientMuxHandler {[ envId := Some scenario.client ]} "https://app.launchdarkly.com".

(** [GET /sdk/eval/users/{user}], past authorization. *)
Definition evalUsers (user : string) : scenario.Request :=
  http.mkRequest "GET" {[ "Authorization" := [scenario.sdkKey] ]} EmptyString
                 {[ "user" := user ]} (Some (clientContextImpl (Some scenario.client))).

(** [GET /sdk/eval/{envId}/users/{user}] of the browser environment,
    as the router hands it over. *)
Definition browserUsers (user : string) : scenario.Request :=
  http.mkRequest "GET" ∅ EmptyString {[ "envId" := envId; "user" := user ]} None.

(** encoding/json on an empty body: the target is left as it is and
    the error says so. *)
Definition emptyBody : json.Unmarshaler (option sample.User) :=
  fun _ user => (user, Some "unexpected end of JSON input").

(** An upstream that answers with a JSON document, and one that cannot
    be reached. *)
Definition goalsFound (_ : outboundRequest) : http.Response + error :=
  inl (http.mkResponse 200 {[ "Content-Type" := ["application/json"] ]} "[]").

Definition unreachable (_ : outboundRequest) : http.Response + error :=
  inr "dial tcp: connection refused".

(** A second environment, with a mobile key, whose client has
    initialised. *)
Definition stagingKey : string := "sdk-87654321-4321-4321-9321-cba987654321".

Definition staging : EnvConfig :=
  mkEnvConfig stagingKey (Some "mob-87654321-4321-4321-9321-cba987654321") None EmptyString.

Definition stagingClient : LDClient (User := sample.User) (FlagValues := sample.FlagValues) :=
  sample.client stagingKey true.

End scenario_more.

(* ===================================================================== *)
(** * Properties *)
(* ===================================================================== *)

(** ** Base64: six-bit groups and bytes *)

Module base64_facts.
Import base64.

Lemma testbit_above (b k n : N) : b < 2 ^ k -> k <= n -> N.testbit b n = false.
Proof.
  intros Hb Hkn.
  destruct (N.eq_dec b 0) as [->|Hnz]; [apply N.bits_0|].
  apply N.bits_above_log2.
  apply N.log2_lt_pow2 in Hb; lia.
Qed.

Lemma lor_shiftl_add (a b k : N) : b < 2 ^ k -> N.lor (N.shiftl a k) b = a * 2 ^ k + b.
Proof.
  intros Hb.
  assert (Hdisj : N.land (N.shiftl a k) b = 0).
  { apply N.bits_inj; intros n.
    rewrite N.land_spec, N.bits_0.
    destruct (N.lt_ge_cases n k) as [Hlt|Hge].
    - rewrite N.shiftl_spec_low by exact Hlt. reflexivity.
    - rewrite (testbit_above b k n Hb Hge). apply andb_false_r. }
  rewrite <- N.lxor_lor, <- N.add_nocarry_lxor by exact Hdisj.
  now rewrite N.shiftl_mul_pow2.
Qed.

Ltac to_arith :=
  change 63 with (N.ones 6); change 255 with (N.ones 8);
  rewrite ?N.land_ones, ?N.shiftr_div_pow2;
  change (2 ^ 6) with 64; change (2 ^ 8) with 256;
  change (2 ^ 12) with 4096; change (2 ^ 16) with 65536;
  change (2 ^ 18) with 262144.

Ltac arith := zify; Z.to_euclidean_division_equations; lia.

Lemma recombine (v : N) :
  v < 16777216 ->
  (v / 262144) mod 64 * 262144 + (v / 4096) mod 64 * 4096
    + (v / 64) mod 64 * 64 + v mod 64 = v.
Proof. intros. arith. Qed.

Lemma recombine3 (v : N) :
  v < 16777216 -> v mod 64 = 0 ->
  (v / 262144) mod 64 * 262144 + (v / 4096) mod 64 * 4096
    + (v / 64) mod 64 * 64 + 0 = v.
Proof. intros. arith. Qed.

Lemma recombine2 (v : N) :
  v < 16777216 -> v mod 4096 = 0 ->
  (v / 262144) mod 64 * 262144 + (v / 4096) mod 64 * 4096 + 0 * 64 + 0 = v.
Proof. intros. arith. Qed.

Lemma split3 (a b c : N) :
  a < 256 -> b < 256 -> c < 256 ->
  ((a * 65536 + b * 256 + c) / 65536) mod 256 = a /\
  ((a * 65536 + b * 256 + c) / 256) mod 256 = b /\
  (a * 65536 + b * 256 + c) mod 256 = c.
Proof. intros. repeat split; arith. Qed.

(** The value assembled from three bytes. *)
Lemma pack3 (a b c : N) :
  a < 256 -> b < 256 -> c < 256 ->
  N.lor (N.lor (N.shiftl a 16) (N.shiftl b 8)) c = a * 65536 + b * 256 + c.
Proof.
  intros Ha Hb Hc.
  rewrite <- N.lor_assoc.
  rewrite (lor_shiftl_add b c 8) by exact Hc.
  rewrite (lor_shiftl_add a _ 16).
  - change (2 ^ 16) with 65536. change (2 ^ 8) with 256. lia.
  - change (2 ^ 16) with 65536. change (2 ^ 8) with 256. lia.
Qed.

(** The value assembled from four six-bit groups. *)
Lemma pack4 (s0 s1 s2 s3 : N) :
  s1 < 64 -> s2 < 64 -> s3 < 64 ->
  N.lor (N.lor (N.lor (N.shiftl s0 18) (N.shiftl s1 12)) (N.shiftl s2 6)) s3
  = s0 * 262144 + s1 * 4096 + s2 * 64 + s3.
Proof.
  intros H1 H2 H3.
  rewrite <- !N.lor_assoc.
  rewrite (lor_shiftl_add s2 s3 6) by exact H3.
  rewrite (lor_shiftl_add s1 _ 12) by (change (2 ^ 12) with 4096; change (2 ^ 6) with 64; lia).
  rewrite (lor_shiftl_add s0 _ 18)
    by (change (2 ^ 18) with 262144; change (2 ^ 12) with 4096; change (2 ^ 6) with 64; lia).
  change (2 ^ 18) with 262144; change (2 ^ 12) with 4096; change (2 ^ 6) with 64. lia.
Qed.

Lemma sextet_lt (x : N) : N.land x 63 < 64.
Proof. to_arith. apply N.mod_lt. discriminate. Qed.

(** Every six-bit value is mapped to a character of the alphabet that
    decodes back to it. *)
Lemma decodeMap_encodeChar (enc enc' : Encoding) (v : N) :
  encode enc = encodeURL -> encode enc' = encodeURL -> v < 64 ->
  decodeMap enc (encodeChar enc' v) = Some v.
Proof.
  intros Henc Henc' Hv. unfold decodeMap, encodeChar. rewrite Henc, Henc'.
  destruct v as [|p]; [reflexivity|].
  do 6 (destruct p as [p|p|]; try reflexivity); lia.
Qed.

Lemma decode_valid (enc : Encoding) (c : ascii) (v : N) (rest : string) (dbuf : list N) :
  decodeMap enc c = Some v ->
  decode enc (String c rest) dbuf
  = if (length (dbuf ++ [v]) =? 4)%nat
    then option_map (String.append (quantum (dbuf ++ [v]))) (decode enc rest [])
    else decode enc rest (dbuf ++ [v]).
Proof. intros H. simpl. rewrite H. reflexivity. Qed.

Section Quantum.
Variables a b c : ascii.
Let A := N_of_ascii a.
Let B := N_of_ascii b.
Let C := N_of_ascii c.

Lemma quantum_3_bytes :
  let val := N.lor (N.lor (N.shiftl A 16) (N.shiftl B 8)) C in
  quantum [N.land (N.shiftr val 18) 63; N.land (N.shiftr val 12) 63;
           N.land (N.shiftr val 6) 63; N.land val 63]
  = String a (String b (String c EmptyString)).
Proof.
  intros val. unfold quantum. cbn [length nth].
  pose proof (N_ascii_bounded a) as Ha. pose proof (N_ascii_bounded b) as Hb.
  pose proof (N_ascii_bounded c) as Hc. fold A in Ha. fold B in Hb. fold C in Hc.
  rewrite pack4 by apply sextet_lt.
  assert (Hval : val = A * 65536 + B * 256 + C) by (apply pack3; assumption).
  destruct (split3 A B C Ha Hb Hc) as (H1 & H2 & H3).
  unfold byte. to_arith. rewrite recombine by lia.
  rewrite Hval, H1, H2, H3.
  unfold A, B, C. now rewrite !ascii_N_embedding.
Qed.

Lemma quantum_2_bytes :
  let val := N.lor (N.shiftl A 16) (N.shiftl B 8) in
  quantum [N.land (N.shiftr val 18) 63; N.land (N.shiftr val 12) 63;
           N.land (N.shiftr val 6) 63]
  = String a (String b EmptyString).
Proof.
  intros val. unfold quantum. cbn [length nth].
  pose proof (N_ascii_bounded a) as Ha. pose proof (N_ascii_bounded b) as Hb.
  fold A in Ha. fold B in Hb.
  rewrite pack4 by (try apply sextet_lt; lia).
  assert (Hval : val = A * 65536 + B * 256 + 0).
  { rewrite <- (pack3 A B 0) by (assumption || lia). now rewrite N.lor_0_r. }
  destruct (split3 A B 0 Ha Hb ltac:(lia)) as (H1 & H2 & H3).
  unfold byte. to_arith. rewrite recombine3 by (rewrite Hval; arith).
  rewrite Hval, H1, H2.
  unfold A, B. now rewrite !ascii_N_embedding.
Qed.

Lemma quantum_1_byte :
  let val := N.shiftl A 16 in
  quantum [N.land (N.shiftr val 18) 63; N.land (N.shiftr val 12) 63]
  = String a EmptyString.
Proof.
  intros val. unfold quantum. cbn [length nth].
  pose proof (N_ascii_bounded a) as Ha. fold A in Ha.
  rewrite pack4 by (try apply sextet_lt; lia).
  assert (Hval : val = A * 65536 + 0 * 256 + 0)
    by (unfold val; rewrite N.shiftl_mul_pow2; change (2 ^ 16) with 65536; lia).
  destruct (split3 A 0 0 Ha ltac:(lia) ltac:(lia)) as (H1 & H2 & H3).
  unfold byte. to_arith. rewrite recombine2 by (rewrite Hval; arith).
  rewrite Hval, H1.
  unfold A. now rewrite !ascii_N_embedding.
Qed.
End Quantum.

Lemma string_ind3 (P : string -> Prop) :
  P EmptyString ->
  (forall a, P (String a EmptyString)) ->
  (forall a b, P (String a (String b EmptyString))) ->
  (forall a b c s, P s -> P (String a (String b (String c s)))) ->
  forall s, P s.
Proof.
  intros H0 H1 H2 H3 s.
  enough (P s /\ (forall a, P (String a s)) /\ (forall a b, P (String a (String b s))))
    by tauto.
  induction s as [|x s (IH0 & IH1 & IH2)]; auto.
Qed.

(** A whole group of three bytes is decoded and decoding goes on with
    the rest. *)
Lemma decode_group (enc enc' : Encoding) (a b c : ascii) (rest : bytes) :
  encode enc = encodeURL -> encode enc' = encodeURL ->
  decode enc (EncodeToString enc' (String a (String b (String c rest)))) []
  = option_map (String.append (String a (String b (String c EmptyString))))
               (decode enc (EncodeToString enc' rest) []).
Proof.
  intros Henc Henc'.
  cbn [EncodeToString].
  repeat (erewrite decode_valid
            by (apply decodeMap_encodeChar; [exact Henc | exact Henc' | apply sextet_lt]);
          cbn [length app Nat.eqb]).
  now rewrite quantum_3_bytes.
Qed.

Lemma decode_end_padded_1 (s0 s1 : N) :
  decode URLEncoding (padding URLEncoding 2) [s0; s1] = Some (quantum [s0; s1]).
Proof. reflexivity. Qed.

Lemma decode_end_padded_2 (s0 s1 s2 : N) :
  decode URLEncoding (padding URLEncoding 1) [s0; s1; s2] = Some (quantum [s0; s1; s2]).
Proof. reflexivity. Qed.

Lemma decode_end_raw_1 (s0 s1 : N) :
  decode RawURLEncoding (padding RawURLEncoding 2) [s0; s1] = Some (quantum [s0; s1]).
Proof. reflexivity. Qed.

Lemma decode_end_raw_2 (s0 s1 s2 : N) :
  decode RawURLEncoding (padding RawURLEncoding 1) [s0; s1; s2]
  = Some (quantum [s0; s1; s2]).
Proof. reflexivity. Qed.

(** Padded decoding of the padded encoding. *)
Lemma decode_padded (src : bytes) :
  decode URLEncoding (EncodeToString URLEncoding src) [] = Some src.
Proof.
  induction src as [|a|a b|a b c rest IH] using string_ind3.
  - reflexivity.
  - cbn [EncodeToString].
    repeat (erewrite decode_valid
              by (apply decodeMap_encodeChar; [reflexivity | reflexivity | apply sextet_lt]);
            cbn [length app Nat.eqb]).
    rewrite ?decode_end_padded_1, ?decode_end_raw_1. now rewrite quantum_1_byte.
  - cbn [EncodeToString].
    repeat (erewrite decode_valid
              by (apply decodeMap_encodeChar; [reflexivity | reflexivity | apply sextet_lt]);
            cbn [length app Nat.eqb]).
    rewrite ?decode_end_padded_2, ?decode_end_raw_2. now rewrite quantum_2_bytes.
  - rewrite decode_group by reflexivity. now rewrite IH.
Qed.

(** Unpadded decoding of the unpadded encoding. *)
Lemma decode_raw (src : bytes) :
  decode RawURLEncoding (EncodeToString RawURLEncoding src) [] = Some src.
Proof.
  induction src as [|a|a b|a b c rest IH] using string_ind3.
  - reflexivity.
  - cbn [EncodeToString].
    repeat (erewrite decode_valid
              by (apply decodeMap_encodeChar; [reflexivity | reflexivity | apply sextet_lt]);
            cbn [length app Nat.eqb]).
    rewrite ?decode_end_padded_1, ?decode_end_raw_1. now rewrite quantum_1_byte.
  - cbn [EncodeToString].
    repeat (erewrite decode_valid
              by (apply decodeMap_encodeChar; [reflexivity | reflexivity | apply sextet_lt]);
            cbn [length app Nat.eqb]).
    rewrite ?decode_end_padded_2, ?decode_end_raw_2. now rewrite quantum_2_bytes.
  - rewrite decode_group by reflexivity. now rewrite IH.
Qed.

(** Padded decoding of the unpadded encoding either fails or gives
    the bytes. *)
Lemma decode_padded_of_raw (src : bytes) :
  decode URLEncoding (EncodeToString RawURLEncoding src) [] = Some src \/
  decode URLEncoding (EncodeToString RawURLEncoding src) [] = None.
Proof.
  induction src as [|a|a b|a b c rest IH] using string_ind3.
  - left. reflexivity.
  - right. cbn [EncodeToString].
    repeat (erewrite decode_valid
              by (apply decodeMap_encodeChar; [reflexivity | reflexivity | apply sextet_lt]);
            cbn [length app Nat.eqb]).
    reflexivity.
  - right. cbn [EncodeToString].
    repeat (erewrite decode_valid
              by (apply decodeMap_encodeChar; [reflexivity | reflexivity | apply sextet_lt]);
            cbn [length app Nat.eqb]).
    reflexivity.
  - rewrite decode_group by reflexivity.
    destruct IH as [-> | ->]; [left | right]; reflexivity.
Qed.

End base64_facts.

Lemma base64urlDecode_padded (b : bytes) :
  base64urlDecode (base64.EncodeToString base64.URLEncoding b) = inl b.
Proof.
  unfold base64urlDecode, base64.DecodeString.
  now rewrite base64_facts.decode_padded.
Qed.

Lemma base64urlDecode_raw (b : bytes) :
  base64urlDecode (base64.EncodeToString base64.RawURLEncoding b) = inl b.
Proof.
  unfold base64urlDecode, base64.DecodeString.
  destruct (base64_facts.decode_padded_of_raw b) as [-> | ->]; [reflexivity|].
  now rewrite base64_facts.decode_raw.
Qed.

(** C3.  Whatever the bytes [b], the padded and the unpadded base64url
    encoding of [b] are both decoded to [b] by [base64urlDecode], the
    decoder of the user path segment, which tries the padded decoding
    first and the unpadded one when that fails. *)
Theorem base64urlDecode_left_inverse (b : bytes) :
  base64urlDecode (base64.EncodeToString base64.URLEncoding b) = inl b /\
  base64urlDecode (base64.EncodeToString base64.RawURLEncoding b) = inl b.
Proof.
  unfold base64urlDecode, base64.DecodeString. split.
  - (* the padded decoding succeeds at once *)
    now rewrite base64_facts.decode_padded.
  - (* the padded decoding gives the bytes or fails; the unpadded one
       gives the bytes *)
    destruct (base64_facts.decode_padded_of_raw b) as [-> | ->]; [reflexivity|].
    now rewrite base64_facts.decode_raw.
Qed.

(** ** The matcher *)

Module regexp_facts.
Import regexp regexp_aux.

Lemma length_append (s1 s2 : string) :
  String.length (s1 +:+ s2) = (String.length s1 + String.length s2)%nat.
Proof. induction s1 as [|a s1 IH]; simpl; [reflexivity | now rewrite IH]. Qed.

Lemma append_empty_r (s : string) : s +:+ EmptyString = s.
Proof.
  induction s as [|a s IH]; [reflexivity|].
  change (String a (s +:+ EmptyString) = String a s). now rewrite IH.
Qed.

Lemma append_assoc (s1 s2 s3 : string) : (s1 +:+ s2) +:+ s3 = s1 +:+ (s2 +:+ s3).
Proof.
  induction s1 as [|a s1 IH]; [reflexivity|].
  change (String a ((s1 +:+ s2) +:+ s3) = String a (s1 +:+ (s2 +:+ s3))).
  now rewrite IH.
Qed.

Lemma substring_prefix (s1 s2 : string) :
  substring 0 (String.length s1) (s1 +:+ s2) = s1.
Proof.
  induction s1 as [|a s1 IH]; [now destruct s2|].
  change (String a (substring 0 (String.length s1) (s1 +:+ s2)) = String a s1).
  now rewrite IH.
Qed.

Lemma Consumes_id : Consumes (fun t => [t]).
Proof.
  intros t t' [<- | []]. exists EmptyString. simpl. split; [reflexivity | lia].
Qed.

Lemma Consumes_step (ok : ascii -> bool) : Consumes (fun t => step t ok).
Proof.
  intros t t'. unfold step.
  destruct (input t) as [|a rest] eqn:E; [intros []|].
  destruct (ok a); [|intros []].
  intros [<- | []]. exists (String a EmptyString). simpl. split; [reflexivity | lia].
Qed.

Lemma Consumes_seq (m1 m2 : thread -> list thread) :
  Consumes m1 -> Consumes m2 -> Consumes (fun t => flat_map m2 (m1 t)).
Proof.
  intros H1 H2 t t' Hin. apply in_flat_map in Hin as (t1 & Hin1 & Hin2).
  destruct (H1 _ _ Hin1) as (c1 & E1 & P1), (H2 _ _ Hin2) as (c2 & E2 & P2).
  exists (c1 +:+ c2). rewrite append_assoc, <- E2, <- E1, length_append.
  split; [reflexivity | lia].
Qed.

Lemma Consumes_iter (m : thread -> list thread) (n : nat) :
  Consumes m ->
  Consumes (Nat.iter n (fun k t0 => flat_map k (m t0)) (fun t0 => [t0])).
Proof.
  intros Hm. induction n as [|n IH]; [apply Consumes_id|].
  simpl. apply (Consumes_seq m _ Hm IH).
Qed.

Lemma Consumes_exec (re : Regexp) : Consumes (exec re).
Proof.
  induction re as [ | c | ranges | | | i sub IH | sub IH | n sub IH | sub1 IH1 sub2 IH2 ];
    simpl.
  - apply Consumes_id.
  - apply Consumes_step.
  - apply Consumes_step.
  - intros t t'. destruct (pos t =? 0)%nat; [apply Consumes_id | intros []].
  - intros t t'. destruct (input t) eqn:E; [|intros []].
    intros Hin. rewrite <- E. apply (Consumes_id t t'). exact Hin.
  - intros t t' Hin. apply in_map_iff in Hin as (t1 & <- & Hin).
    apply (IH t t1 Hin).
  - intros t t' Hin. apply in_app_iff in Hin as [Hin | Hin].
    + apply (IH t t' Hin).
    + apply (Consumes_id t t' Hin).
  - apply Consumes_iter, IH.
  - apply Consumes_seq; assumption.
Qed.

Lemma resume_same (t : thread) : resume t (input t) = t.
Proof. destruct t as [p s c]. unfold resume. simpl. f_equal. lia. Qed.

Lemma Plain_id : Plain (fun t => [t]).
Proof. intros t. simpl. now rewrite resume_same. Qed.

Lemma Plain_step (ok : ascii -> bool) : Plain (fun t => step t ok).
Proof.
  intros [p s c]. unfold step. simpl.
  destruct s as [|a rest]; [reflexivity|].
  destruct (ok a); [|reflexivity].
  simpl. unfold resume. simpl. do 2 f_equal. lia.
Qed.

Lemma flat_map_ext_in {A B} (f g : A -> list B) (l : list A) :
  (forall a, In a l -> f a = g a) -> flat_map f l = flat_map g l.
Proof.
  induction l as [|x l IH]; intros H; simpl; [reflexivity|].
  rewrite (H x) by (left; reflexivity).
  rewrite IH; [reflexivity|]. intros a Ha. apply H. right. exact Ha.
Qed.

Lemma flat_map_map {A B C} (f : A -> B) (g : B -> list C) (l : list A) :
  flat_map g (map f l) = flat_map (fun a => g (f a)) l.
Proof. induction l as [|x l IH]; simpl; [reflexivity | now rewrite IH]. Qed.

Lemma map_flat_map {A B C} (f : A -> list B) (g : B -> C) (l : list A) :
  map g (flat_map f l) = flat_map (fun a => map g (f a)) l.
Proof. induction l as [|x l IH]; simpl; [reflexivity | now rewrite map_app, IH]. Qed.

Lemma Plain_seq (m1 m2 : thread -> list thread) :
  Plain m1 -> Consumes m1 -> Plain m2 -> Consumes m2 ->
  Plain (fun t => flat_map m2 (m1 t)).
Proof.
  intros P1 C1 P2 C2 t.
  set (t0 := mkThread 0 (input t) []).
  rewrite (P1 t). fold t0.
  rewrite !flat_map_map, !map_flat_map.
  apply flat_map_ext_in. intros t1 Hin1.
  destruct (C1 _ _ Hin1) as (c1 & E1 & _). simpl in E1.
  rewrite (P2 (resume t (input t1))), (P2 t1). simpl input.
  rewrite !map_map. apply map_ext_in. intros t2 Hin2.
  destruct (C2 _ _ Hin2) as (c2 & E2 & _). simpl in E2.
  unfold resume. simpl. f_equal.
  rewrite E1, E2, !length_append. lia.
Qed.

Lemma Plain_iter (m : thread -> list thread) (n : nat) :
  Plain m -> Consumes m ->
  Plain (Nat.iter n (fun k t0 => flat_map k (m t0)) (fun t0 => [t0])).
Proof.
  intros Pm Cm. induction n as [|n IH]; [apply Plain_id|].
  simpl. apply (Plain_seq m _ Pm Cm IH). now apply Consumes_iter.
Qed.

Lemma Plain_exec (re : Regexp) : plain re = true -> Plain (exec re).
Proof.
  induction re as [ | c | ranges | | | i sub IH | sub IH | n sub IH | sub1 IH1 sub2 IH2 ];
    simpl; intros Hp; try discriminate.
  - apply Plain_id.
  - apply Plain_step.
  - apply Plain_step.
  - intros [p s c]. simpl. destruct s; [|reflexivity].
    simpl. unfold resume. simpl. do 2 f_equal. lia.
  - intros t. rewrite (IH Hp t) at 1. simpl input.
    rewrite !map_app. simpl. now rewrite resume_same.
  - apply Plain_iter; [now apply IH | apply Consumes_exec].
  - apply andb_prop in Hp as [Hp1 Hp2].
    apply Plain_seq; auto using Consumes_exec.
Qed.

(** A plain pattern run from any thread: the remainders of its input,
    resumed from that thread. *)
Lemma exec_plain (re : Regexp) (t : thread) :
  plain re = true -> exec re t = map (resume t) (remainders re (input t)).
Proof. intros Hp. apply (Plain_exec re Hp t). Qed.

Lemma stripPrefix_Some (p s rest : string) :
  stripPrefix p s = Some rest -> s = p +:+ rest.
Proof.
  revert s. induction p as [|a p IH]; intros s H; simpl in H.
  - now inversion H.
  - destruct s as [|b s]; [discriminate|].
    destruct (Ascii.eqb_spec a b) as [->|]; [|discriminate].
    change (String b s = String b (p +:+ rest)). now rewrite (IH s H).
Qed.

Lemma stripPrefix_append (p rest : string) : stripPrefix p (p +:+ rest) = Some rest.
Proof.
  induction p as [|a p IH]; [reflexivity|].
  change (stripPrefix (String a p) (String a (p +:+ rest)) = Some rest).
  simpl. now rewrite Ascii.eqb_refl.
Qed.

(** A literal consumes itself and nothing else. *)
Lemma exec_literal (p : string) (t : thread) :
  exec (literal p) t
  = match stripPrefix p (input t) with
    | Some rest => [mkThread (pos t + String.length p) rest (cap t)]
    | None => []
    end.
Proof.
  revert t. induction p as [|a p IH]; intros [n s c]; simpl.
  - do 2 f_equal. lia.
  - unfold step. simpl. destruct s as [|b s]; [reflexivity|].
    destruct (Ascii.eqb a b); [|reflexivity].
    simpl. rewrite IH. simpl. rewrite app_nil_r.
    destruct (stripPrefix p s); [|reflexivity]. do 2 f_equal. lia.
Qed.

Lemma exec_tokenToEnd (t : thread) :
  exec tokenToEnd t
  = map (fun _ => accepted t) (List.filter base64.atEnd (remainders tokenPattern (input t))).
Proof.
  change (exec tokenToEnd t)
    with (flat_map (exec (OpConcat OpEndText OpEmptyMatch))
            (map (fun t' => mkThread (pos t') (input t')
                     ((1%nat, substring 0 (pos t' - pos t) (input t)) :: cap t'))
                 (exec tokenPattern t))).
  rewrite (exec_plain tokenPattern t) by reflexivity.
  rewrite map_map, flat_map_map.
  induction (remainders tokenPattern (input t)) as [|r l IH]; [reflexivity|].
  cbn [flat_map List.filter]. rewrite IH.
  destruct r as [|a r]; [|reflexivity].
  simpl. f_equal. unfold accepted. f_equal; [f_equal; simpl; lia|].
  do 2 f_equal.
  replace (pos t + (String.length (input t) - 0) - pos t)%nat
    with (String.length (input t)) by lia.
  rewrite <- (append_empty_r (input t)) at 2. apply substring_prefix.
Qed.

Lemma exec_tokenToEnd_shaped (t : thread) :
  tokenShaped (input t) = true -> exists l, exec tokenToEnd t = accepted t :: l.
Proof.
  unfold tokenShaped, matchesAll. rewrite exec_tokenToEnd.
  induction (remainders tokenPattern (input t)) as [|r l IH]; [discriminate|].
  simpl. destruct (base64.atEnd r); simpl; [|exact IH].
  intros _. eexists. reflexivity.
Qed.

Lemma exec_tokenToEnd_unshaped (t : thread) :
  tokenShaped (input t) = false -> exec tokenToEnd t = [].
Proof.
  unfold tokenShaped, matchesAll. rewrite exec_tokenToEnd.
  induction (remainders tokenPattern (input t)) as [|r l IH]; [reflexivity|].
  simpl. destruct (base64.atEnd r); simpl; [discriminate | exact IH].
Qed.

(** A string that starts with the prefix is not of the shape of a token. *)
Lemma prefixed_not_tokenShaped (rest : string) :
  tokenShaped ("api_key " +:+ rest) = false.
Proof. reflexivity. Qed.

(** The threads of the whole header pattern at offset 0. *)
Lemma exec_uuidHeaderPattern (h : string) :
  exec uuidHeaderPattern (mkThread 0 h [])
  = match stripPrefix "api_key " h with
    | Some rest => exec tokenToEnd (mkThread 8 rest [])
    | None => []
    end ++ exec tokenToEnd (mkThread 0 h []).
Proof.
  change (exec uuidHeaderPattern (mkThread 0 h []))
    with (flat_map (exec tokenToEnd)
            (exec (literal "api_key ") (mkThread 0 h []) ++ [mkThread 0 h []]) ++ []).
  rewrite app_nil_r, flat_map_app, exec_literal. simpl input.
  destruct (stripPrefix "api_key " h); simpl; now rewrite !app_nil_r.
Qed.

Lemma search_unfold (re : Regexp) (start : nat) (s : string) :
  search re start s
  = match exec re (mkThread start s []) with
    | t :: _ => Some (substring 0 (pos t - start) s, t)
    | [] => match s with
            | String _ rest => search re (S start) rest
            | EmptyString => None
            end
    end.
Proof. destruct s; reflexivity. Qed.

Lemma search_uuidHeaderPattern_later (n : nat) (s : string) :
  search uuidHeaderPattern (S n) s = None.
Proof. revert n. induction s as [|a s IH]; intros n; simpl; [reflexivity | apply IH]. Qed.

(** What [FindStringSubmatch] finds in a header value. *)
Lemma FindStringSubmatch_uuidHeaderPattern (h : string) :
  FindStringSubmatch uuidHeaderPattern h
  = match headerToken h with
    | Some token => Some [h; token]
    | None => None
    end.
Proof.
  unfold FindStringSubmatch, headerToken.
  assert (Hnone : exec uuidHeaderPattern (mkThread 0 h []) = [] ->
                  search uuidHeaderPattern 0 h = None).
  { intros E. rewrite search_unfold, E.
    destruct h; [reflexivity | apply search_uuidHeaderPattern_later]. }
  assert (Hsome : forall t l, exec uuidHeaderPattern (mkThread 0 h []) = t :: l ->
                  search uuidHeaderPattern 0 h = Some (substring 0 (pos t - 0) h, t)).
  { intros t l E. now rewrite search_unfold, E. }
  pose proof (exec_uuidHeaderPattern h) as E.
  destruct (stripPrefix "api_key " h) as [rest|] eqn:Hp.
  - apply stripPrefix_Some in Hp. subst h.
    rewrite (exec_tokenToEnd_unshaped (mkThread 0 _ []))
      in E by apply prefixed_not_tokenShaped.
    rewrite app_nil_r in E.
    destruct (tokenShaped rest) eqn:Hs.
    + destruct (exec_tokenToEnd_shaped (mkThread 8 rest []) Hs) as (l & El).
      rewrite El in E. rewrite (Hsome _ _ E).
      change (numSubexp uuidHeaderPattern) with 1%nat.
      cbn [seq map accepted group cap find fst snd Nat.eqb input pos].
      do 3 f_equal.
      replace (8 + String.length rest - 0)%nat
        with (String.length ("api_key " +:+ rest)) by (rewrite length_append; simpl; lia).
      rewrite <- (append_empty_r ("api_key " +:+ rest)) at 2. apply substring_prefix.
    + rewrite (exec_tokenToEnd_unshaped (mkThread 8 rest []) Hs) in E.
      now rewrite (Hnone E).
  - cbn [app] in E.
    destruct (tokenShaped h) eqn:Hs.
    + destruct (exec_tokenToEnd_shaped (mkThread 0 h []) Hs) as (l & El).
      rewrite El in E. rewrite (Hsome _ _ E).
      change (numSubexp uuidHeaderPattern) with 1%nat.
      cbn [seq map accepted group cap find fst snd Nat.eqb input pos].
      do 3 f_equal.
      replace (0 + String.length h - 0)%nat with (String.length h) by lia.
      rewrite <- (append_empty_r h) at 2. apply substring_prefix.
    + rewrite (exec_tokenToEnd_unshaped (mkThread 0 h []) Hs) in E.
      now rewrite (Hnone E).
Qed.

End regexp_facts.

(** ** The handlers *)

Section RelayFacts.

Context {User FlagValues : Type}.
Variable Key : User -> option string.
Variable zeroUser : User.
Variable ServeHTTP : Handler -> HandlerFunc (User := User) (FlagValues := FlagValues).
Variable NewRequest_ok : string -> bool.
Variable Do : outboundRequest -> http.Response + error.
Context `{!json.Unmarshaler User, !json.Unmarshaler (option User)}.
Context `{!json.Marshaler errorJson, !json.Marshaler FlagValues,
          !json.Marshaler statusResponse}.

Implicit Types (req : Request (User := User) (FlagValues := FlagValues)).
Implicit Types (σ : World (User := User) (FlagValues := FlagValues)).
Implicit Types (next : HandlerFunc (User := User) (FlagValues := FlagValues)).

(** *** Token extraction *)

Lemma fetchAuthToken_headerToken req :
  fetchAuthToken req
  = match headerToken (http.Header_Get (http.ReqHeader req) "Authorization") with
    | Some token => inl token
    | None => inr "No valid token found"
    end.
Proof.
  unfold fetchAuthToken.
  rewrite regexp_facts.FindStringSubmatch_uuidHeaderPattern.
  now destruct (headerToken _).
Qed.

Lemma headerToken_prefixed (t : string) :
  headerToken ("api_key " +:+ t) = if tokenShaped t then Some t else None.
Proof. unfold headerToken. now rewrite regexp_facts.stripPrefix_append. Qed.

Lemma headerToken_bare (t : string) :
  (forall u, t = "api_key " +:+ u -> tokenShaped u = false) ->
  headerToken t = if tokenShaped t then Some t else None.
Proof.
  intros Hno. unfold headerToken.
  destruct (stripPrefix "api_key " t) as [u|] eqn:Hp; [|reflexivity].
  apply regexp_facts.stripPrefix_Some in Hp.
  rewrite (Hno u Hp). subst t.
  now rewrite regexp_facts.prefixed_not_tokenShaped.
Qed.

(** X1.  A header that is a token, with or without the prefix, yields
    that token. *)
Lemma fetchAuthToken_tokenShaped req (t : string) :
  tokenShaped t = true ->
  http.Header_Get (http.ReqHeader req) "Authorization" = t \/
  http.Header_Get (http.ReqHeader req) "Authorization" = "api_key " +:+ t ->
  fetchAuthToken req = inl t.
Proof.
  intros Ht [Hh | Hh]; rewrite fetchAuthToken_headerToken, Hh.
  - rewrite headerToken_bare, Ht; [reflexivity|].
    intros u ->. now rewrite regexp_facts.prefixed_not_tokenShaped in Ht.
  - now rewrite headerToken_prefixed, Ht.
Qed.

Lemma authorizeMethod_fetchAuthToken req1 req2 :
  fetchAuthToken req1 = fetchAuthToken req2 ->
  forall (m : authKeyMap (User := User) (FlagValues := FlagValues)) σ,
    authorizeMethod m σ req1 = authorizeMethod m σ req2.
Proof. intros E m σ. unfold authorizeMethod. now rewrite E. Qed.

(** C1, amended.  Let [t] be a credential string that is not itself
    [api_key ] followed by a string of the shape of a token.  A
    request whose Authorization header is [api_key ] followed by [t]
    and a request whose header is [t] get the same token or the same
    error from [fetchAuthToken], and [authorizeMethod] selects the
    same entry and writes the same reply for both. *)
Theorem fetchAuthToken_prefix_optional req1 req2 (t : string) :
  http.Header_Get (http.ReqHeader req1) "Authorization" = "api_key " +:+ t ->
  http.Header_Get (http.ReqHeader req2) "Authorization" = t ->
  (forall u, t = "api_key " +:+ u -> tokenShaped u = false) ->
  fetchAuthToken req1 = fetchAuthToken req2 /\
  (forall (m : authKeyMap (User := User) (FlagValues := FlagValues)) σ,
     authorizeMethod m σ req1 = authorizeMethod m σ req2).
Proof.
  intros Hreq1 Hreq2 Hno.
  assert (E : fetchAuthToken req1 = fetchAuthToken req2).
  { rewrite !fetchAuthToken_headerToken, Hreq1, Hreq2.
    now rewrite headerToken_prefixed, headerToken_bare. }
  split; [exact E | now apply authorizeMethod_fetchAuthToken].
Qed.

(** *** Authorization by credential *)

Lemma replied_WriteHeader (code : nat) σ :
  http.written (resp σ) = None ->
  replied code EmptyString σ (onResp (http.WriteHeader code) σ).
Proof.
  intros Hw. unfold replied, onResp, http.WriteHeader, http.status. simpl.
  rewrite Hw. simpl. now rewrite regexp_facts.append_empty_r.
Qed.

Lemma replied_WriteHeader_Write (code : nat) (text : string) σ :
  http.written (resp σ) = None ->
  replied code text σ (onResp (http.Write text) (onResp (http.WriteHeader code) σ)).
Proof.
  intros Hw. unfold replied, onResp, http.Write, http.WriteHeader, http.status. simpl.
  rewrite Hw. simpl. auto.
Qed.

Lemma authorizeMethod_no_token (m : authKeyMap (User := User) (FlagValues := FlagValues))
    σ req (e : error) :
  fetchAuthToken req = inr e ->
  authorizeMethod m σ req
  = (inr "Unauthorized", onResp (http.WriteHeader http.StatusUnauthorized) σ).
Proof. intros E. unfold authorizeMethod. now rewrite E. Qed.

Lemma authorizeMethod_flagReader_miss (m : gmap string flagReader) σ req (key : string) :
  fetchAuthToken req = inl key -> index m key = None ->
  authorizeMethod (flagReaderMap m) σ req
  = (inr "Unauthorized",
     onResp (http.Write "ld-relay is not configured for the provided key")
            (onResp (http.WriteHeader http.StatusUnauthorized) σ)).
Proof. intros E Hm. unfold authorizeMethod. now rewrite E, Hm. Qed.

Lemma authorizeMethod_handler_miss (m : gmap string (option Handler)) σ req (key : string) :
  fetchAuthToken req = inl key -> index m key = None ->
  authorizeMethod (handlerMap (User := User) (FlagValues := FlagValues) m) σ req
  = (inr "Unauthorized",
     onResp (http.Write "ld-relay is not configured for the provided key")
            (onResp (http.WriteHeader http.StatusUnauthorized) σ)).
Proof. intros E Hm. unfold authorizeMethod. now rewrite E, Hm. Qed.

Lemma not_registered_index {A} (m : gmap string (option A)) (key : string) :
  bool_decide (is_Some (index m key)) = false -> index m key = None.
Proof.
  intros Hb. apply bool_decide_eq_false in Hb.
  destruct (index m key) eqn:E; [|reflexivity]. exfalso. apply Hb. eauto.
Qed.

(** C4, amended.  On each handler that authorizes by credential: if
    the Authorization header carries no token of the pattern, or the
    token has no entry in the handler's map, the reply is 401 and the
    wrapped handler is not run, whatever it is.  The body is the
    literal explanation when the token is not in the map, and empty
    when the header carries no token. *)
Theorem authorize_unauthorized (a : authorizer) req σ :
  http.written (resp σ) = None ->
  (forall key, fetchAuthToken req = inl key -> registered a key = false) ->
  exists σ',
    (forall next, authorize a next req σ = Done σ') /\
    replied http.StatusUnauthorized (unauthorizedBody (fetchAuthToken req)) σ σ'.
Proof.
  intros Hw Hreg.
  destruct (fetchAuthToken req) as [key|e] eqn:E.
  - specialize (Hreg key eq_refl).
    exists (onResp (http.Write "ld-relay is not configured for the provided key")
              (onResp (http.WriteHeader http.StatusUnauthorized) σ)).
    split; [|now apply replied_WriteHeader_Write].
    intros next. destruct a as [m|m|m]; simpl in Hreg |- *;
      apply not_registered_index in Hreg.
    + unfold clientMuxHandler_authorizeMethod.
      now rewrite (authorizeMethod_flagReader_miss _ _ _ key E Hreg).
    + unfold eventsMuxHandler_authorizeMethod.
      now rewrite (authorizeMethod_handler_miss _ _ _ key E Hreg).
    + unfold streamMuxHandler_authorizeMethod.
      now rewrite (authorizeMethod_handler_miss _ _ _ key E Hreg).
  - exists (onResp (http.WriteHeader http.StatusUnauthorized) σ).
    split; [|now apply replied_WriteHeader].
    intros next. destruct a as [m|m|m]; simpl.
    + unfold clientMuxHandler_authorizeMethod.
      now rewrite (authorizeMethod_no_token _ _ _ e E).
    + unfold eventsMuxHandler_authorizeMethod.
      now rewrite (authorizeMethod_no_token _ _ _ e E).
    + unfold streamMuxHandler_authorizeMethod.
      now rewrite (authorizeMethod_no_token _ _ _ e E).
Qed.

(** The routes of [main] that authorize by credential are instances
    of [authorize]. *)
Lemma router_authorize (c : Config) (r : registry) :
  let route := router Key zeroUser ServeHTTP NewRequest_ok Do c r in
  let eval := evaluateAllFeatureFlags Key zeroUser in
  route POST_bulk
    = authorize (byEvents (mkEventsMuxHandler (main_eventHandlers r))) (serveHandler ServeHTTP) /\
  route GET_flags
    = authorize (byStream (mkStreamMuxHandler (main_handlers r))) (serveHandler ServeHTTP) /\
  route GET_sdk_eval_users
    = authorize (byClient (mkClientMuxHandler (main_clients r) EmptyString)) eval /\
  route REPORT_sdk_eval_user
    = authorize (byClient (mkClientMuxHandler (main_clients r) EmptyString)) eval /\
  route GET_msdk_eval_users
    = authorize (byClient (mkClientMuxHandler (main_mobileClients r) EmptyString)) eval /\
  route REPORT_msdk_eval_user
    = authorize (byClient (mkClientMuxHandler (main_mobileClients r) EmptyString)) eval.
Proof. repeat split. Qed.

(** *** Browser routes *)

(** C8.  On a browser route, when the [envId] path segment has no
    entry in the browser map the reply is 404 with the explanation,
    and the inner handler is not run.  Only the path variables of the
    request are read: any request with the same path variables,
    whatever its headers, gets this reply. *)
Theorem findEnvironment_unknown (m : clientMuxHandler) req σ :
  http.written (resp σ) = None ->
  index (clients m) (http.Var req "envId") = None ->
  exists σ',
    (forall next req', http.Vars req' = http.Vars req ->
       findEnvironment m next req' σ = Done σ') /\
    replied http.StatusNotFound
      ("ld-relay is not configured for environment id " +:+ http.Var req "envId") σ σ'.
Proof.
  intros Hw Hm.
  eexists. split.
  - intros next req' Hv. unfold findEnvironment, http.Var.
    rewrite Hv. fold (http.Var req "envId"). rewrite Hm. reflexivity.
  - unfold replied, onResp, http.Write, http.WriteHeader, http.SetHeader, http.status.
    simpl. rewrite Hw. simpl. auto.
Qed.

Lemma router_findEnvironment (c : Config) (r : registry) :
  let route := router Key zeroUser ServeHTTP NewRequest_ok Do c r in
  let m := mkClientMuxHandler (main_clientSideClients r) (BaseUri (Main c)) in
  route GET_sdk_goals = findEnvironment m (getGoals NewRequest_ok Do m) /\
  route GET_sdk_eval_env_users = findEnvironment m (evaluateAllFeatureFlags Key zeroUser) /\
  route REPORT_sdk_eval_env_user = findEnvironment m (evaluateAllFeatureFlags Key zeroUser).
Proof. repeat split. Qed.

(** *** Status *)

Lemma statusLoop_spec (m : gmap string (flagReader (User := User) (FlagValues := FlagValues))) :
  (forall k, fst (statusLoop m) !! k = statusEntryOf <$> m !! k) /\
  (snd (statusLoop m) = true <-> map_Forall (fun _ v => connected v = true) m).
Proof.
  unfold statusLoop.
  apply (map_fold_weak_ind
           (fun (acc : gmap string StatusEntry * bool) m =>
              (forall k, fst acc !! k = statusEntryOf <$> m !! k) /\
              (snd acc = true <-> map_Forall (fun _ v => connected v = true) m))).
  - split.
    + intros k. now rewrite !lookup_empty.
    + split; [intros _; apply map_Forall_empty | reflexivity].
  - intros i v m' [envs healthy] Hfresh [IHe IHh]. simpl in IHe, IHh.
    assert (Hentries : forall e : StatusEntry, e = statusEntryOf v ->
              forall k, <[i := e]> envs !! k = statusEntryOf <$> <[i := v]> m' !! k).
    { intros e -> k. destruct (decide (i = k)) as [->|Hne].
      - now rewrite !lookup_insert_eq.
      - rewrite !lookup_insert_ne by exact Hne. apply IHe. }
    rewrite (map_Forall_insert _ _ _ _ Hfresh).
    destruct v as [client|]; [destruct (Initialized client) eqn:Hinit|]; simpl; split;
      try (apply Hentries; unfold statusEntryOf, connected; now rewrite ?Hinit).
    + rewrite IHh. unfold connected. rewrite Hinit. tauto.
    + unfold connected. rewrite Hinit. split; [discriminate | intros [? _]; discriminate].
    + unfold connected. split; [discriminate | intros [? _]; discriminate].
Qed.

(** C5.  [getStatus] answers with the marshalled status map, in which
    every key of the client map, and no other, has an entry: it says
    "connected" exactly when the client of the key is non-nil and
    initialised, and "disconnected" otherwise; the top-level status
    is "healthy" exactly when every key is connected, and "degraded"
    otherwise. *)
Theorem getStatus_reports (m : clientMuxHandler) req σ :
  exists (envs : gmap string StatusEntry) (overall : string),
    getStatus m req σ
    = Done (onResp (http.Write (json.Marshal (mkStatusResponse envs overall)))
                   (onResp (http.SetHeader "Content-Type" "application/json") σ)) /\
    (forall k, clients m !! k = None -> envs !! k = None) /\
    (forall k v, clients m !! k = Some v ->
       envs !! k = Some (mkStatusEntry (if connected v then "connected" else "disconnected")) /\
       (connected v = true <-> exists client, v = Some client /\ Initialized client = true)) /\
    (overall = "healthy" <->
       forall k v, clients m !! k = Some v -> connected v = true) /\
    (overall = "healthy" \/ overall = "degraded").
Proof.
  destruct (statusLoop_spec (clients m)) as [Hentries Hhealthy].
  exists (fst (statusLoop (clients m))),
         (if snd (statusLoop (clients m)) then "healthy" else "degraded").
  split; [|split; [|split; [|split]]].
  - unfold getStatus. fold (statusLoop (clients m)).
    now destruct (statusLoop (clients m)).
  - intros k Hk. now rewrite Hentries, Hk.
  - intros k v Hk. split; [now rewrite Hentries, Hk|].
    unfold connected. destruct v as [client|]; split.
    + eauto.
    + now intros (? & [= <-] & ?).
    + discriminate.
    + now intros (? & [=] & _).
  - unfold map_Forall in Hhealthy. rewrite <- Hhealthy.
    destruct (snd (statusLoop (clients m))); split; (reflexivity || discriminate).
  - destruct (snd (statusLoop (clients m))); auto.
Qed.

(** *** Evaluation *)

Local Abbreviation evaluate := (evaluateAllFeatureFlags Key zeroUser).

(** C7.  A REPORT request whose Content-Type is not
    [application/json] is answered 415 with a text body and nothing
    is evaluated; one whose Content-Type is [application/json] is
    never answered 415. *)
Theorem report_content_type req σ :
  http.Method req = "REPORT" ->
  http.written (resp σ) = None ->
  (http.Header_Get (http.ReqHeader req) "Content-Type" <> "application/json" ->
     exists σ', evaluate req σ = Done σ' /\
       replied http.StatusUnsupportedMediaType "Content-Type must be application/json." σ σ') /\
  (http.Header_Get (http.ReqHeader req) "Content-Type" = "application/json" ->
     forall σ', evaluate req σ = Done σ' ->
       http.status (resp σ') <> Some http.StatusUnsupportedMediaType).
Proof.
  intros Hm Hw. unfold evaluateAllFeatureFlags. rewrite decide_True by exact Hm. split.
  - intros Hct. rewrite decide_False by exact Hct.
    eexists. split; [reflexivity|]. now apply replied_WriteHeader_Write.
  - intros Hct. rewrite decide_True by exact Hct.
    destruct (json.Unmarshal (http.Body req) None) as [user [err|]]; intros σ'.
    + intros [= <-]. unfold http.status, onResp, http.Write, http.WriteHeader. simpl.
      rewrite Hw. simpl. discriminate.
    + destruct (http.Value req) as [[client|]|]; try discriminate.
      destruct user as [u|]; [|discriminate].
      destruct client as [c|]; [|discriminate].
      intros [= <-]. unfold http.status, onResp, http.Write, http.WriteHeader, http.SetHeader.
      simpl. rewrite Hw. simpl. discriminate.
Qed.

(** The user of a GET request: every failure to decode it, and a
    decoded user without a key, is answered 400 with the marshalled
    error, and the evaluator is not called. *)
Lemma get_without_key req σ :
  http.Method req <> "REPORT" ->
  http.written (resp σ) = None ->
  fst (UserV2FromBase64 Key zeroUser (http.Var req "user")) = None ->
  exists detail σ',
    evaluate req σ = Done σ' /\
    replied http.StatusBadRequest (json.Marshal (mkErrorJson detail)) σ σ'.
Proof.
  intros Hm Hw Hu. unfold evaluateAllFeatureFlags. rewrite decide_False by exact Hm.
  assert (Herr : exists detail, snd (UserV2FromBase64 Key zeroUser (http.Var req "user"))
                                = Some detail).
  { revert Hu. unfold UserV2FromBase64.
    destruct (base64urlDecode _); [|eauto].
    destruct (json.Unmarshal _ _) as [u [e|]]; [eauto|].
    destruct (Key u); [discriminate | eauto]. }
  destruct Herr as [detail Hd].
  destruct (UserV2FromBase64 _ _ _) as [user err]. simpl in Hd. subst err.
  exists detail. eexists. split; [reflexivity|].
  now apply replied_WriteHeader_Write.
Qed.

(** On the GET path a user without [key] is refused with exactly this
    message. *)
Lemma UserV2FromBase64_no_key (base64User : string) (idStr : bytes) (user : User) :
  base64urlDecode base64User = inl idStr ->
  json.Unmarshal idStr zeroUser = (user, None) ->
  Key user = None ->
  UserV2FromBase64 Key zeroUser base64User
  = (None, Some "User must have a 'key' attribute").
Proof. intros Hb Hj Hk. unfold UserV2FromBase64. now rewrite Hb, Hj, Hk. Qed.

(** X2.  The user whose JSON text is placed in the path, padded or not, is
    the user the handler evaluates. *)
Lemma UserV2FromBase64_encoded (enc : base64.Encoding) (b : bytes) (user : User)
    (key : string) :
  enc = base64.URLEncoding \/ enc = base64.RawURLEncoding ->
  json.Unmarshal b zeroUser = (user, None) ->
  Key user = Some key ->
  UserV2FromBase64 Key zeroUser (base64.EncodeToString enc b) = (Some user, None).
Proof.
  intros Henc Hj Hk. unfold UserV2FromBase64.
  destruct Henc as [-> | ->];
    rewrite ?base64urlDecode_padded, ?base64urlDecode_raw, Hj, Hk; reflexivity.
Qed.

(** C2, at the failing input.  A REPORT body that decodes without
    error to a user with no key is not refused: the evaluator is
    called with that user and the answer is 200. *)
Theorem report_without_key_is_evaluated req σ (c : LDClient) (u : User) :
  http.Method req = "REPORT" ->
  http.Header_Get (http.ReqHeader req) "Content-Type" = "application/json" ->
  http.Value req = Some (clientContextImpl (Some c)) ->
  http.written (resp σ) = None ->
  json.Unmarshal (http.Body req) (None : option User) = (Some u, None) ->
  Key u = None ->
  exists σ',
    evaluate req σ = Done σ' /\
    http.status (resp σ') = Some http.StatusOK /\
    http.body (resp σ') = http.body (resp σ) +:+ json.Marshal (AllFlags c u) /\
    trace σ' = trace σ ++ [CallAllFlags c u].
Proof.
  intros Hm Hct Hv Hw Hj _. unfold evaluateAllFeatureFlags.
  rewrite decide_True by exact Hm. rewrite decide_True by exact Hct.
  rewrite Hj, Hv. eexists. split; [reflexivity|].
  unfold http.status, onResp, emit, http.Write, http.WriteHeader, http.SetHeader.
  simpl. rewrite Hw. simpl. auto.
Qed.

(** C10, at the failing input.  A REPORT body that json.Unmarshal
    decodes to the nil pointer without an error, as it does the
    document [null], makes the handler dereference nil: it panics and
    writes no reply. *)
Theorem report_null_panics req σ (client : flagReader) :
  http.Method req = "REPORT" ->
  http.Header_Get (http.ReqHeader req) "Content-Type" = "application/json" ->
  http.Value req = Some (clientContextImpl client) ->
  json.Unmarshal (http.Body req) (None : option User) = (None, None) ->
  evaluate req σ = Panic "nil pointer dereference".
Proof.
  intros Hm Hct Hv Hj. unfold evaluateAllFeatureFlags.
  rewrite decide_True by exact Hm. rewrite decide_True by exact Hct.
  now rewrite Hj, Hv.
Qed.

(** *** Goals passthrough *)

Local Abbreviation goals := (getGoals NewRequest_ok Do).

(** X3.  When the upstream answers and names a Content-Type, the reply
    carries the upstream's status, Content-Type and body, with the
    permissive CORS header; one GET was sent, with the inbound
    Authorization header. *)
Lemma getGoals_passthrough (m : clientMuxHandler) req σ (res : http.Response)
    (contentType : string) (more : list string) :
  NewRequest_ok (outURL (goalsRequest m req)) = true ->
  http.written (resp σ) = None ->
  Do (goalsRequest m req) = inl res ->
  http.RespHeader res !! "Content-Type" = Some (contentType :: more) ->
  exists σ',
    goals m req σ = Done σ' /\
    http.status (resp σ') = Some (http.StatusCode res) /\
    http.sentHeader (resp σ') "Content-Type" = contentType /\
    http.sentHeader (resp σ') "Access-Control-Allow-Origin" = "*" /\
    http.body (resp σ') = http.body (resp σ) +:+ http.RespBody res /\
    trace σ' = trace σ ++ [CallDo (goalsRequest m req)].
Proof.
  intros Hurl Hw Hdo Hct. unfold getGoals.
  unfold goalsRequest in Hurl, Hdo. simpl in Hurl. rewrite Hurl, Hdo, Hct.
  eexists. split; [reflexivity|].
  unfold http.status, http.sentHeader, onResp, emit, http.Write, http.WriteHeader,
    http.SetHeader, http.Header_Set, http.Header_Get.
  simpl. rewrite Hw. simpl. unfold http.Header.
  rewrite lookup_insert_eq, lookup_insert_ne by discriminate.
  rewrite lookup_insert_eq. auto.
Qed.

(** X4.  When the upstream request fails the reply is 500 with no body. *)
Lemma getGoals_upstream_failure (m : clientMuxHandler) req σ (e : error) :
  NewRequest_ok (outURL (goalsRequest m req)) = true ->
  http.written (resp σ) = None ->
  Do (goalsRequest m req) = inr e ->
  exists σ',
    goals m req σ = Done σ' /\
    http.status (resp σ') = Some http.StatusInternalServerError /\
    http.body (resp σ') = http.body (resp σ) /\
    trace σ' = trace σ ++ [CallDo (goalsRequest m req)].
Proof.
  intros Hurl Hw Hdo. unfold getGoals.
  unfold goalsRequest in Hurl, Hdo. simpl in Hurl. rewrite Hurl, Hdo.
  eexists. split; [reflexivity|].
  unfold http.status, onResp, emit, http.WriteHeader, http.SetHeader.
  simpl. rewrite Hw. simpl. auto.
Qed.

(** C9, at the failing input.  When the upstream answers without a
    Content-Type header, the handler indexes an empty list: it panics
    and the upstream's status and body are not written. *)
Theorem getGoals_without_content_type (m : clientMuxHandler) req σ (res : http.Response) :
  NewRequest_ok (outURL (goalsRequest m req)) = true ->
  Do (goalsRequest m req) = inl res ->
  http.RespHeader res !! "Content-Type" = None ->
  goals m req σ = Panic "index out of range".
Proof.
  intros Hurl Hdo Hct. unfold getGoals.
  unfold goalsRequest in Hurl, Hdo. simpl in Hurl. now rewrite Hurl, Hdo, Hct.
Qed.

(** *** Startup *)

(** C6, amended.  When the SDK client of an environment fails to
    initialise: with exitOnError set and ignoreConnectionErrors unset
    the process exits with status 1; with ignoreConnectionErrors set
    the stream handler, the event handler (if events are sent) and the
    credential entries are installed; with neither flag set the stream
    and event handler maps are left as they were, and the client is
    still entered under the server key, the mobile key and the
    browser id. *)
Theorem startEnvironment_failed (c : Config) (envConfig : EnvConfig)
    (client : LDClient (User := User) (FlagValues := FlagValues)) (e : error) (r : registry) :
  let key := ApiKey envConfig in
  let outcome := startEnvironment c envConfig client (Some e) r in
  let credentials (r' : registry) :=
    main_clients r' !! key = Some (Some client) /\
    (forall k, nonEmpty (MobileKey envConfig) = Some k ->
               main_mobileClients r' !! k = Some (Some client)) /\
    (forall k, nonEmpty (EnvId envConfig) = Some k ->
               main_clientSideClients r' !! k = Some (Some client)) in
  (IgnoreConnectionErrors (Main c) = false -> ExitOnError (Main c) = true ->
     outcome = Exit 1) /\
  (IgnoreConnectionErrors (Main c) = true ->
     exists r', outcome = Running r' /\ credentials r' /\
       main_handlers r' !! key = Some (Some (publisherHandler key)) /\
       (SendEvents (Events c) = true ->
          main_eventHandlers r' !! key = Some (Some (relayHandler key c)))) /\
  (IgnoreConnectionErrors (Main c) = false -> ExitOnError (Main c) = false ->
     exists r', outcome = Running r' /\ credentials r' /\
       main_handlers r' = main_handlers r /\
       main_eventHandlers r' = main_eventHandlers r).
Proof.
  intros key outcome credentials. subst outcome. unfold startEnvironment.
  assert (Hcred : forall h eh,
    credentials (mkRegistry
      (<[ApiKey envConfig := Some client]> (main_clients r))
      match nonEmpty (MobileKey envConfig) with
      | Some k => <[k := Some client]> (main_mobileClients r)
      | None => main_mobileClients r
      end
      match nonEmpty (EnvId envConfig) with
      | Some k => <[k := Some client]> (main_clientSideClients r)
      | None => main_clientSideClients r
      end h eh)).
  { intros h eh. unfold credentials. simpl. repeat split.
    - apply lookup_insert_eq.
    - intros k ->. apply lookup_insert_eq.
    - intros k ->. apply lookup_insert_eq. }
  repeat split.
  - intros -> ->. reflexivity.
  - intros ->. rewrite andb_false_r. eexists. split; [reflexivity|].
    split; [apply Hcred|]. simpl. split; [apply lookup_insert_eq|].
    intros ->. apply lookup_insert_eq.
  - intros -> ->. simpl. eexists. split; [reflexivity|].
    split; [apply Hcred|]. simpl. auto.
Qed.

End RelayFacts.

(** ** Scenarios *)

Import sample.

(** C1, as stated, fails for a credential string that itself starts
    with the prefix: the bare header yields the token after the prefix,
    the prefixed header yields the error. *)
Lemma fetchAuthToken_prefix_twice :
  fetchAuthToken (scenario.authRequest ("api_key " +:+ ("api_key " +:+ scenario.uuid)))
    = inr "No valid token found" /\
  fetchAuthToken (scenario.authRequest ("api_key " +:+ scenario.uuid))
    = inl scenario.uuid /\
  fetchAuthToken (scenario.authRequest ("api_key " +:+ ("api_key " +:+ scenario.uuid)))
    <> fetchAuthToken (scenario.authRequest ("api_key " +:+ scenario.uuid)).
Proof. repeat split; vm_compute; (reflexivity || discriminate). Qed.

Lemma fetchAuthToken_prefix_optional_witness :
  http.Header_Get (http.ReqHeader (scenario.authRequest ("api_key " +:+ scenario.sdkKey)))
                  "Authorization" = "api_key " +:+ scenario.sdkKey /\
  http.Header_Get (http.ReqHeader (scenario.authRequest scenario.sdkKey))
                  "Authorization" = scenario.sdkKey /\
  (forall u, scenario.sdkKey = "api_key " +:+ u -> tokenShaped u = false) /\
  fetchAuthToken (scenario.authRequest ("api_key " +:+ scenario.sdkKey))
    = fetchAuthToken (scenario.authRequest scenario.sdkKey) /\
  (forall (m : authKeyMap) (σ : scenario.World),
     authorizeMethod m σ (scenario.authRequest ("api_key " +:+ scenario.sdkKey))
     = authorizeMethod m σ (scenario.authRequest scenario.sdkKey)).
Proof.
  assert (H1 : http.Header_Get
                 (http.ReqHeader (scenario.authRequest ("api_key " +:+ scenario.sdkKey)))
                 "Authorization" = "api_key " +:+ scenario.sdkKey) by reflexivity.
  assert (H2 : http.Header_Get (http.ReqHeader (scenario.authRequest scenario.sdkKey))
                 "Authorization" = scenario.sdkKey) by reflexivity.
  assert (H3 : forall u, scenario.sdkKey = "api_key " +:+ u -> tokenShaped u = false)
    by (intros u Hu; discriminate Hu).
  split; [exact H1 | split; [exact H2 | split; [exact H3 |]]].
  exact (fetchAuthToken_prefix_optional _ _ _ H1 H2 H3).
Defined.

(** C4, as stated, fails for a header that carries no token: the reply
    is 401, and its body is empty. *)
Lemma authorize_no_token_empty_body :
  authorize (byClient (mkClientMuxHandler {[ scenario.sdkKey := Some scenario.client ]}
                                          EmptyString))
            scenario.evaluate (scenario.authRequest "Bearer secret") scenario.world0
  = Done (mkWorld (http.mkResponseWriter ∅ (Some (http.StatusUnauthorized, ∅)) EmptyString) []).
Proof. vm_compute. reflexivity. Qed.

Lemma authorize_unauthorized_witness :
  http.written (resp scenario.world0) = None /\
  (forall key, fetchAuthToken (scenario.authRequest scenario.sdkKey) = inl key ->
               registered (byClient scenario.browser) key = false) /\
  exists σ' : scenario.World,
    (forall next, authorize (byClient scenario.browser) next
                    (scenario.authRequest scenario.sdkKey) scenario.world0 = Done σ') /\
    replied http.StatusUnauthorized
      (unauthorizedBody (fetchAuthToken (scenario.authRequest scenario.sdkKey)))
      scenario.world0 σ'.
Proof.
  assert (H1 : http.written (resp scenario.world0) = None) by reflexivity.
  assert (H2 : forall key, fetchAuthToken (scenario.authRequest scenario.sdkKey) = inl key ->
                 registered (byClient scenario.browser) key = false)
    by (intros key _; reflexivity).
  split; [exact H1 | split; [exact H2 |]].
  exact (authorize_unauthorized (byClient scenario.browser)
           (scenario.authRequest scenario.sdkKey) scenario.world0 H1 H2).
Defined.

Lemma findEnvironment_unknown_witness :
  http.written (resp scenario.world0) = None /\
  index (clients scenario.browser) (http.Var (scenario.goals "5a1b2c3d4e5f") "envId") = None /\
  exists σ' : scenario.World,
    (forall next req', http.Vars req' = http.Vars (scenario.goals "5a1b2c3d4e5f") ->
       findEnvironment scenario.browser next req' scenario.world0 = Done σ') /\
    replied http.StatusNotFound
      ("ld-relay is not configured for environment id "
       +:+ http.Var (scenario.goals "5a1b2c3d4e5f") "envId")
      scenario.world0 σ'.
Proof.
  assert (H1 : http.written (resp scenario.world0) = None) by reflexivity.
  assert (H2 : index (clients scenario.browser)
                 (http.Var (scenario.goals "5a1b2c3d4e5f") "envId") = None) by reflexivity.
  split; [exact H1 | split; [exact H2 |]].
  exact (findEnvironment_unknown scenario.browser (scenario.goals "5a1b2c3d4e5f")
           scenario.world0 H1 H2).
Defined.

Lemma report_content_type_witness :
  http.Method (scenario.report "text/plain" "{}") = "REPORT" /\
  http.written (resp scenario.world0) = None /\
  (http.Header_Get (http.ReqHeader (scenario.report "text/plain" "{}")) "Content-Type"
     <> "application/json" ->
   exists σ', scenario.evaluate (scenario.report "text/plain" "{}") scenario.world0 = Done σ' /\
     replied http.StatusUnsupportedMediaType "Content-Type must be application/json."
             scenario.world0 σ') /\
  (http.Header_Get (http.ReqHeader (scenario.report "text/plain" "{}")) "Content-Type"
     = "application/json" ->
   forall σ', scenario.evaluate (scenario.report "text/plain" "{}") scenario.world0 = Done σ' ->
     http.status (resp σ') <> Some http.StatusUnsupportedMediaType).
Proof.
  assert (H1 : http.Method (scenario.report "text/plain" "{}") = "REPORT") by reflexivity.
  assert (H2 : http.written (resp scenario.world0) = None) by reflexivity.
  split; [exact H1 | split; [exact H2 |]].
  exact (report_content_type sample.Key sample.zeroUser
           (scenario.report "text/plain" "{}") scenario.world0 H1 H2).
Defined.

Lemma report_without_key_is_evaluated_witness :
  http.Method (scenario.report "application/json" "{}") = "REPORT" /\
  http.Header_Get (http.ReqHeader (scenario.report "application/json" "{}")) "Content-Type"
    = "application/json" /\
  http.Value (scenario.report "application/json" "{}")
    = Some (clientContextImpl (Some scenario.client)) /\
  http.written (resp scenario.world0) = None /\
  json.Unmarshal (http.Body (scenario.report "application/json" "{}")) (None : option sample.User)
    = (Some sample.zeroUser, None) /\
  sample.Key sample.zeroUser = None /\
  exists σ',
    scenario.evaluate (scenario.report "application/json" "{}") scenario.world0 = Done σ' /\
    http.status (resp σ') = Some http.StatusOK /\
    http.body (resp σ')
      = http.body (resp scenario.world0)
        +:+ json.Marshal (AllFlags scenario.client sample.zeroUser) /\
    trace σ' = trace scenario.world0 ++ [CallAllFlags scenario.client sample.zeroUser].
Proof.
  repeat (split; [reflexivity|]).
  exact (report_without_key_is_evaluated sample.Key sample.zeroUser
           (scenario.report "application/json" "{}") scenario.world0
           scenario.client sample.zeroUser
           eq_refl eq_refl eq_refl eq_refl eq_refl eq_refl).
Defined.

(** The same user in the path of a GET request is refused: 400 with
    the message about the key, and no call of the evaluator. *)
Lemma get_without_key_refused :
  authorize (byClient (mkClientMuxHandler {[ scenario.sdkKey := Some scenario.client ]}
                                          EmptyString))
            scenario.evaluate
            (scenario.evalUsers (base64.EncodeToString base64.RawURLEncoding "{}"))
            scenario.world0
  = Done (mkWorld
            (http.mkResponseWriter ∅ (Some (http.StatusBadRequest, ∅))
               ("{" +:+ sample.quoted "message" +:+ ":"
                +:+ sample.quoted "User must have a 'key' attribute" +:+ "}"))
            []).
Proof. vm_compute. reflexivity. Qed.

Lemma report_null_panics_witness :
  http.Method (scenario.report "application/json" "null") = "REPORT" /\
  http.Header_Get (http.ReqHeader (scenario.report "application/json" "null")) "Content-Type"
    = "application/json" /\
  http.Value (scenario.report "application/json" "null")
    = Some (clientContextImpl (Some scenario.client)) /\
  json.Unmarshal (http.Body (scenario.report "application/json" "null"))
                 (None : option sample.User) = (None, None) /\
  scenario.evaluate (scenario.report "application/json" "null") scenario.world0
    = Panic "nil pointer dereference".
Proof.
  repeat (split; [reflexivity|]).
  exact (report_null_panics sample.Key sample.zeroUser
           (scenario.report "application/json" "null") scenario.world0
           (Some scenario.client) eq_refl eq_refl eq_refl eq_refl).
Defined.

Lemma getGoals_without_content_type_witness :
  (fun _ : string => true) (outURL (goalsRequest scenario.browser (scenario.goals "5a1b2c3d4e5f")))
    = true /\
  scenario.noContent (goalsRequest scenario.browser (scenario.goals "5a1b2c3d4e5f"))
    = inl (http.mkResponse 204 ∅ EmptyString) /\
  http.RespHeader (http.mkResponse 204 ∅ EmptyString) !! "Content-Type" = None /\
  getGoals (fun _ => true) scenario.noContent scenario.browser
           (scenario.goals "5a1b2c3d4e5f") scenario.world0
    = Panic "index out of range".
Proof.
  repeat (split; [reflexivity|]).
  exact (getGoals_without_content_type (fun _ => true) scenario.noContent scenario.browser
           (scenario.goals "5a1b2c3d4e5f") scenario.world0
           (http.mkResponse 204 ∅ EmptyString) eq_refl eq_refl eq_refl).
Defined.

Lemma startEnvironment_failed_witness :
  IgnoreConnectionErrors (Main scenario.config) = false /\
  ExitOnError (Main scenario.config) = false /\
  exists r',
    startEnvironment scenario.config scenario.production scenario.client
      (Some scenario.timeout) scenario.registry0 = Running r' /\
    (main_clients r' !! ApiKey scenario.production = Some (Some scenario.client) /\
     (forall k, nonEmpty (MobileKey scenario.production) = Some k ->
                main_mobileClients r' !! k = Some (Some scenario.client)) /\
     (forall k, nonEmpty (EnvId scenario.production) = Some k ->
                main_clientSideClients r' !! k = Some (Some scenario.client))) /\
    main_handlers r' = main_handlers scenario.registry0 /\
    main_eventHandlers r' = main_eventHandlers scenario.registry0.
Proof.
  assert (H1 : IgnoreConnectionErrors (Main scenario.config) = false) by reflexivity.
  assert (H2 : ExitOnError (Main scenario.config) = false) by reflexivity.
  split; [exact H1 | split; [exact H2 |]].
  exact (proj2 (proj2 (startEnvironment_failed scenario.config scenario.production
                         scenario.client scenario.timeout
                         scenario.registry0)) H1 H2).
Defined.

(** C6, as stated, fails with neither flag set: the environment whose
    client timed out is still entered in the client map, and an
    evaluation request presenting its server key is served. *)
Lemma failed_environment_is_served :
  match startEnvironment scenario.config scenario.production scenario.client
          (Some scenario.timeout) scenario.registry0 with
  | Running r =>
      main_clients r !! scenario.sdkKey = Some (Some scenario.client) /\
      authorize (byClient (mkClientMuxHandler (main_clients r) EmptyString)) scenario.evaluate
                (scenario.evalUsers
                   (base64.EncodeToString base64.URLEncoding scenario.userJson))
                scenario.world0
      = Done (mkWorld
                (http.mkResponseWriter
                   {[ "Content-Type" := ["application/json"] ]}
                   (Some (http.StatusOK, {[ "Content-Type" := ["application/json"] ]}))
                   "null")
                [CallAllFlags scenario.client (sample.mkUser (Some "u1"))])
  | Exit _ => False
  end.
Proof. vm_compute. split; reflexivity. Qed.

(* ===================================================================== *)
(** * Further properties *)
(* ===================================================================== *)

(** ** The version string *)

Module strings_facts.
Import strings_pkg.

Lemma Split_nonempty (s : string) (sep : ascii) : Split s sep <> [].
Proof.
  destruct s as [|c rest]; simpl; [discriminate|].
  destruct (Ascii.eqb c sep); [discriminate|].
  destruct (Split rest sep); discriminate.
Qed.

(** One piece more than there are separators. *)
Lemma Split_length (s : string) (sep : ascii) :
  length (Split s sep) = S (countByte sep s).
Proof.
  induction s as [|c rest IH]; simpl; [reflexivity|].
  destruct (Ascii.eqb c sep); simpl; [now rewrite IH|].
  destruct (Split rest sep) eqn:E; simpl in *; [discriminate | exact IH].
Qed.

(** The piece before the first separator. *)
Lemma Split_first (a b : string) (sep : ascii) :
  countByte sep a = 0%nat ->
  Split (a +:+ String sep b) sep = a :: Split b sep.
Proof.
  induction a as [|c a IH]; intros Ha.
  - change (Split (String sep b) sep = EmptyString :: Split b sep).
    simpl. now rewrite Ascii.eqb_refl.
  - change (Split (String c (a +:+ String sep b)) sep = String c a :: Split b sep).
    simpl in Ha |- *. destruct (Ascii.eqb c sep); [discriminate|].
    now rewrite (IH Ha).
Qed.

Lemma Split_none (s : string) (sep : ascii) :
  countByte sep s = 0%nat -> Split s sep = [s].
Proof.
  induction s as [|c rest IH]; intros Hs; simpl in *; [reflexivity|].
  destruct (Ascii.eqb c sep); [discriminate|]. now rewrite (IH Hs).
Qed.

End strings_facts.

(** X5.  A version of the form [v+build], with no further [+], is shown
    as [v (build build)]. *)
Theorem formatVersion_build (v build : string) :
  countByte "+" v = 0%nat -> countByte "+" build = 0%nat ->
  formatVersion (v +:+ "+" +:+ build) = v +:+ " (build " +:+ build +:+ ")".
Proof.
  intros Hv Hb. unfold formatVersion.
  change (v +:+ "+" +:+ build) with (v +:+ String "+" build).
  rewrite (strings_facts.Split_first v build "+" Hv).
  now rewrite (strings_facts.Split_none build "+" Hb).
Qed.

Lemma formatVersion_build_witness :
  countByte "+" "2.1.0" = 0%nat /\ countByte "+" "7f3a9c" = 0%nat /\
  formatVersion ("2.1.0" +:+ "+" +:+ "7f3a9c") = "2.1.0" +:+ " (build " +:+ "7f3a9c" +:+ ")".
Proof.
  split; [reflexivity | split; [reflexivity|]].
  exact (formatVersion_build "2.1.0" "7f3a9c" eq_refl eq_refl).
Defined.

(** X6.  A version with no [+], or with more than one, is shown as it
    is. *)
Theorem formatVersion_unchanged (version : string) :
  countByte "+" version <> 1%nat -> formatVersion version = version.
Proof.
  intros Hn. unfold formatVersion.
  pose proof (strings_facts.Split_length version "+") as Hlen.
  destruct (strings_pkg.Split version "+") as [|p1 [|p2 [|p3 ps]]]; try reflexivity.
  simpl in Hlen. exfalso. apply Hn. lia.
Qed.

Lemma formatVersion_unchanged_witness :
  countByte "+" "DEV" <> 1%nat /\ formatVersion "DEV" = "DEV".
Proof.
  assert (H : countByte "+" "DEV" <> 1%nat) by (simpl; discriminate).
  split; [exact H | exact (formatVersion_unchanged "DEV" H)].
Defined.

(** ** What the base64url decoders refuse *)

Module base64_refusals.
Import base64.

Lemma skipNewlines_foreign (s : string) :
  hasForeign s = true -> hasForeign (skipNewlines s) = true.
Proof.
  induction s as [|c rest IH]; simpl; [discriminate|].
  destruct (isNewline c) eqn:Hn; [|now simpl].
  unfold foreign. rewrite Hn, andb_false_r. simpl. exact IH.
Qed.

Lemma foreign_not_atEnd (s : string) : hasForeign s = true -> atEnd s = false.
Proof. destruct s; [discriminate | reflexivity]. Qed.

(** A foreign byte anywhere in the input makes decoding fail, for
    both encodings and whatever part of a quantum is pending. *)
Lemma decode_foreign (enc : Encoding) (s : string) (dbuf : list N) :
  encode enc = encodeURL ->
  (forall c, isPad enc c = true -> Ascii.eqb c "=" = true) ->
  hasForeign s = true -> decode enc s dbuf = None.
Proof.
  intros Henc Hpad. revert dbuf.
  induction s as [|c rest IH]; intros dbuf Hf; [discriminate|].
  simpl in Hf. simpl decode.
  assert (Hmap : decodeMap enc c = decodeMap URLEncoding c)
    by (unfold decodeMap; now rewrite Henc).
  rewrite Hmap. unfold foreign in Hf.
  destruct (decodeMap URLEncoding c) as [out|] eqn:Hd.
  - simpl in Hf. destruct (length (dbuf ++ [out]) =? 4)%nat.
    + now rewrite (IH [] Hf).
    + apply IH, Hf.
  - simpl in Hf. destruct (isNewline c) eqn:Hn; [apply IH, Hf|].
    destruct (isPad enc c) eqn:Hp; [|reflexivity].
    rewrite (Hpad c Hp) in Hf. simpl in Hf.
    pose proof (skipNewlines_foreign rest Hf) as Hrest.
    destruct (length dbuf) as [|[|[|n]]]; try reflexivity.
    + destruct (skipNewlines rest) as [|c' rest']; [reflexivity|].
      destruct (isPad enc c') eqn:Hp'; [|reflexivity].
      simpl in Hrest. unfold foreign in Hrest.
      rewrite (Hpad c' Hp'), andb_false_r in Hrest. simpl in Hrest.
      now rewrite (foreign_not_atEnd _ (skipNewlines_foreign rest' Hrest)).
    + now rewrite (foreign_not_atEnd _ Hrest).
Qed.

Lemma base64urlDecode_foreign (s : string) :
  hasForeign s = true ->
  base64urlDecode s = inr "String did not decode as valid base64".
Proof.
  intros Hf. unfold base64urlDecode, DecodeString.
  rewrite (decode_foreign URLEncoding s [] eq_refl) by (trivial || (intros c Hc; exact Hc)).
  rewrite (decode_foreign RawURLEncoding s [] eq_refl); [reflexivity | | exact Hf].
  intros c Hc. discriminate Hc.
Qed.

End base64_refusals.

(** X7.  [base64urlDecode] refuses every string that holds a byte outside
    the URL alphabet other than a line break or [=]; the characters [+]
    and [/] of the standard alphabet are such bytes. *)
Theorem base64urlDecode_rejects_foreign (s : string) :
  hasForeign s = true ->
  base64urlDecode s = inr "String did not decode as valid base64" /\
  foreign "+" = true /\ foreign "/" = true.
Proof.
  intros Hf. split; [|split; reflexivity].
  unfold base64urlDecode, base64.DecodeString.
  rewrite (base64_refusals.decode_foreign base64.URLEncoding s [] eq_refl)
    by (trivial || (intros c Hc; exact Hc)).
  rewrite (base64_refusals.decode_foreign base64.RawURLEncoding s [] eq_refl);
    [reflexivity | | exact Hf].
  intros c Hc. discriminate Hc.
Qed.

Lemma base64urlDecode_rejects_foreign_witness :
  hasForeign "eyJrZXkiOiJ+In0=" = true /\
  base64urlDecode "eyJrZXkiOiJ+In0=" = inr "String did not decode as valid base64" /\
  foreign "+" = true /\ foreign "/" = true.
Proof.
  split; [reflexivity|].
  exact (base64urlDecode_rejects_foreign "eyJrZXkiOiJ+In0=" eq_refl).
Defined.

(** ** The length of a token *)

Module regexp_widths.
Import regexp regexp_aux regexp_facts.

Lemma Within_id : Within [0%nat] (fun t => [t]).
Proof. intros t t' [<- | []]. left. lia. Qed.

Lemma Within_step (ok : ascii -> bool) : Within [1%nat] (fun t => step t ok).
Proof.
  intros t t'. unfold step. destruct (input t) as [|a rest]; [intros []|].
  destruct (ok a); [|intros []]. intros [<- | []]. left. simpl. lia.
Qed.

Lemma Within_seq (ws1 ws2 : list nat) (m1 m2 : thread -> list thread) :
  Consumes m1 -> Consumes m2 -> Within ws1 m1 -> Within ws2 m2 ->
  Within (flat_map (fun w => map (Nat.add w) ws2) ws1) (fun t => flat_map m2 (m1 t)).
Proof.
  intros C1 C2 W1 W2 t t' Hin. apply in_flat_map in Hin as (t1 & Hin1 & Hin2).
  destruct (C1 _ _ Hin1) as (c1 & _ & P1), (C2 _ _ Hin2) as (c2 & _ & P2).
  apply in_flat_map. exists (pos t1 - pos t)%nat. split; [now apply W1|].
  apply in_map_iff. exists (pos t' - pos t1)%nat. split; [lia | now apply W2].
Qed.

Lemma Within_iter (ws : list nat) (m : thread -> list thread) (n : nat) :
  Consumes m -> Within ws m ->
  Within (Nat.iter n (fun acc => flat_map (fun w => map (Nat.add w) acc) ws) [0%nat])
         (Nat.iter n (fun k t0 => flat_map k (m t0)) (fun t0 => [t0])).
Proof.
  intros Cm Wm. induction n as [|n IH]; [apply Within_id|].
  simpl. apply (Within_seq ws _ m _ Cm (Consumes_iter m n Cm) Wm IH).
Qed.

Lemma Within_exec (re : Regexp) : Within (widths re) (exec re).
Proof.
  induction re as [ | c | ranges | | | i sub IH | sub IH | n sub IH | sub1 IH1 sub2 IH2 ];
    simpl.
  - apply Within_id.
  - apply Within_step.
  - apply Within_step.
  - intros t t'. destruct (pos t =? 0)%nat; [apply Within_id | intros []].
  - intros t t'. destruct (input t); [apply Within_id | intros []].
  - intros t t' Hin. apply in_map_iff in Hin as (t1 & <- & Hin). apply (IH t t1 Hin).
  - intros t t' Hin. apply in_app_iff in Hin as [Hin | Hin]; apply in_app_iff.
    + left. apply (IH t t' Hin).
    + right. apply (Within_id t t' Hin).
  - apply Within_iter; [apply Consumes_exec | exact IH].
  - apply Within_seq; auto using Consumes_exec.
Qed.

(** A string a pattern matches entirely has one of its widths. *)
Lemma matchesAll_width (re : Regexp) (s : string) :
  matchesAll re s = true -> In (String.length s) (widths re).
Proof.
  unfold matchesAll, remainders. intros Hm.
  apply existsb_exists in Hm as (r & Hin & Hend).
  apply in_map_iff in Hin as (t' & <- & Hin).
  destruct (input t') eqn:E; [|discriminate].
  destruct (Consumes_exec re _ _ Hin) as (c & Hc & Hp). simpl in Hc, Hp.
  rewrite E, append_empty_r in Hc. subst c.
  pose proof (Within_exec re _ _ Hin) as Hw. simpl in Hw.
  now replace (pos t' - 0)%nat with (String.length s) in Hw by lia.
Qed.

Lemma tokenShaped_length (t : string) :
  tokenShaped t = true -> String.length t = 36%nat \/ String.length t = 40%nat.
Proof.
  intros Ht. apply matchesAll_width in Ht.
  change (widths tokenPattern) with [40%nat; 36%nat] in Ht.
  destruct Ht as [<- | [<- | []]]; auto.
Qed.

End regexp_widths.

Section MoreRelayFacts.

Context {User FlagValues : Type}.
Variable Key : User -> option string.
Variable zeroUser : User.
Variable ServeHTTP : Handler -> HandlerFunc (User := User) (FlagValues := FlagValues).
Variable NewRequest_ok : string -> bool.
Variable Do : outboundRequest -> http.Response + error.
Context `{!json.Unmarshaler User, !json.Unmarshaler (option User)}.
Context `{!json.Marshaler errorJson, !json.Marshaler FlagValues,
          !json.Marshaler statusResponse}.

Implicit Types (req : Request (User := User) (FlagValues := FlagValues)).
Implicit Types (σ : World (User := User) (FlagValues := FlagValues)).
Implicit Types (next : HandlerFunc (User := User) (FlagValues := FlagValues)).

Local Abbreviation evaluate := (evaluateAllFeatureFlags Key zeroUser).

(** A lemma depends on the parameters its statement names, and on no
    other. *)
Local Set Default Proof Using "Type".

(** *** Tokens *)

(** X8.  A token [fetchAuthToken] returns is the header, or the header
    without the prefix [api_key ]; it has the shape of the pattern, and
    so 36 or 40 bytes. *)
Theorem fetchAuthToken_token_shape req (token : string) :
  fetchAuthToken req = inl token ->
  (http.Header_Get (http.ReqHeader req) "Authorization" = token \/
   http.Header_Get (http.ReqHeader req) "Authorization" = "api_key " +:+ token) /\
  tokenShaped token = true /\
  (String.length token = 36%nat \/ String.length token = 40%nat).
Proof.
  rewrite fetchAuthToken_headerToken. unfold headerToken.
  set (h := http.Header_Get (http.ReqHeader req) "Authorization").
  assert (Hgoal : forall t, tokenShaped t = true -> (h = t \/ h = "api_key " +:+ t) ->
            (h = t \/ h = "api_key " +:+ t) /\ tokenShaped t = true /\
            (String.length t = 36%nat \/ String.length t = 40%nat)).
  { intros t Ht Hh. repeat split; auto using regexp_widths.tokenShaped_length. }
  destruct (stripPrefix "api_key " h) as [rest|] eqn:Hp.
  - apply regexp_facts.stripPrefix_Some in Hp.
    destruct (tokenShaped rest) eqn:Hs; [|discriminate].
    intros [= <-]. apply Hgoal; auto.
  - destruct (tokenShaped h) eqn:Hs; [|discriminate].
    intros [= <-]. apply Hgoal; auto.
Qed.


(** *** Authorized requests *)

Lemma authorizeMethod_flagReader_hit (m : gmap string flagReader) σ req (key : string)
    (client : LDClient) :
  fetchAuthToken req = inl key -> index m key = Some client ->
  authorizeMethod (flagReaderMap m) σ req = (inl (ctxFlagReader client), σ).
Proof. intros E Hm. unfold authorizeMethod. now rewrite E, Hm. Qed.

Lemma authorizeMethod_handler_hit (m : gmap string (option Handler)) σ req (key : string)
    (handler : Handler) :
  fetchAuthToken req = inl key -> index m key = Some handler ->
  authorizeMethod (handlerMap (User := User) (FlagValues := FlagValues) m) σ req
  = (inl (ctxHandler handler), σ).
Proof. intros E Hm. unfold authorizeMethod. now rewrite E, Hm. Qed.

(** X9.  When the token of the request has an entry in the map of the
    handler, the wrapped handler is run on the request with that
    entry as its context, and the wrapper has written nothing. *)
Theorem authorize_registered (a : authorizer) next req σ (key : string) :
  fetchAuthToken req = inl key ->
  match a with
  | byClient m =>
      forall client, index (clients m) key = Some client ->
        authorize a next req σ
        = next (http.WithValue req (clientContextImpl (Some client))) σ
  | byEvents m =>
      forall handler, index (eventHandlers m) key = Some handler ->
        authorize a next req σ
        = next (http.WithValue req (handlerContextImpl (Some handler))) σ
  | byStream m =>
      forall handler, index (streamHandlers m) key = Some handler ->
        authorize a next req σ
        = next (http.WithValue req (handlerContextImpl (Some handler))) σ
  end.
Proof.
  intros E. destruct a as [m|m|m]; simpl; intros x Hx.
  - unfold clientMuxHandler_authorizeMethod.
    now rewrite (authorizeMethod_flagReader_hit _ _ _ key x E Hx).
  - unfold eventsMuxHandler_authorizeMethod.
    now rewrite (authorizeMethod_handler_hit _ _ _ key x E Hx).
  - unfold streamMuxHandler_authorizeMethod.
    now rewrite (authorizeMethod_handler_hit _ _ _ key x E Hx).
Qed.

(** X10.  On [/flags] and [/bulk] the handler that serves is the one
    stored under the token of the request, and it is called once,
    before anything is written. *)
Theorem serve_registered_handler (handlers : gmap string (option Handler)) req σ
    (key : string) (handler : Handler) :
  fetchAuthToken req = inl key ->
  index handlers key = Some handler ->
  let served :=
    ServeHTTP handler (http.WithValue req (handlerContextImpl (Some handler)))
              (emit (CallServeHTTP handler) σ) in
  authorize (byStream (mkStreamMuxHandler handlers)) (serveHandler ServeHTTP) req σ = served /\
  authorize (byEvents (mkEventsMuxHandler handlers)) (serveHandler ServeHTTP) req σ = served.
Proof.
  intros E Hh served. simpl.
  unfold streamMuxHandler_authorizeMethod, eventsMuxHandler_authorizeMethod. simpl.
  rewrite (authorizeMethod_handler_hit _ _ _ key handler E Hh).
  split; reflexivity.
Qed.

Lemma findEnvironment_known (m : clientMuxHandler) next req σ (client : LDClient) :
  index (clients m) (http.Var req "envId") = Some client ->
  findEnvironment m next req σ
  = next (http.WithValue req (clientContextImpl (Some client)))
         (onResp (http.SetHeader "Access-Control-Allow-Origin" "*") σ).
Proof. intros Hm. unfold findEnvironment. now rewrite Hm. Qed.

(** *** Evaluation *)

(** X11.  [UserV2FromBase64] returns a user with a key and no error, or
    no user and one of its three errors; never a user without a key,
    and never neither. *)
Theorem UserV2FromBase64_result (base64User : string) :
  (exists user key,
     UserV2FromBase64 Key zeroUser base64User = (Some user, None) /\
     Key user = Some key) \/
  (exists err,
     UserV2FromBase64 Key zeroUser base64User = (None, Some err) /\
     (err = "User part of url path did not decode as valid base64" \/
      err = "User part of url path did not decode to valid user as json" \/
      err = "User must have a 'key' attribute")).
Proof.
  unfold UserV2FromBase64.
  destruct (base64urlDecode base64User) as [idStr|e]; [|right; eauto].
  destruct (json.Unmarshal idStr zeroUser) as [user [e|]]; [right; eauto 6|].
  destruct (Key user) as [key|] eqn:Hk; [left; eauto | right; eauto 6].
Qed.

Lemma evaluate_get req σ :
  http.Method req <> "REPORT" ->
  evaluate req σ
  = match UserV2FromBase64 Key zeroUser (http.Var req "user") with
    | (_, Some err) =>
        Done (onResp (http.Write (ErrorJsonMsg err))
                     (onResp (http.WriteHeader http.StatusBadRequest) σ))
    | (user, None) =>
        match http.Value req with
        | Some (clientContextImpl client) =>
            match user with
            | None => Panic "nil pointer dereference"
            | Some u =>
                match client with
                | None => Panic "nil pointer dereference"
                | Some c =>
                    Done (onResp (http.Write (json.Marshal (AllFlags c u)))
                           (onResp (http.WriteHeader http.StatusOK)
                              (onResp (http.SetHeader "Content-Type" "application/json")
                                 (emit (CallAllFlags c u) σ))))
                end
            end
        | _ => Panic "interface conversion"
        end
    end.
Proof.
  intros Hm. unfold evaluateAllFeatureFlags. rewrite decide_False by exact Hm.
  destruct (UserV2FromBase64 Key zeroUser (http.Var req "user")) as [user [err|]];
    reflexivity.
Qed.

(** A GET evaluation whose context holds a client never panics: it
    answers 200 after one call of the evaluator, with a user that has
    a key, or 400 with the marshalled error and no call. *)
Lemma evaluate_get_served req σ (c : LDClient) :
  http.Method req <> "REPORT" ->
  http.Value req = Some (clientContextImpl (Some c)) ->
  http.written (resp σ) = None ->
  exists σ',
    evaluate req σ = Done σ' /\
    ((exists user key,
        Key user = Some key /\
        http.status (resp σ') = Some http.StatusOK /\
        http.body (resp σ') = http.body (resp σ) +:+ json.Marshal (AllFlags c user) /\
        trace σ' = trace σ ++ [CallAllFlags c user]) \/
     (exists err, replied http.StatusBadRequest (json.Marshal (mkErrorJson err)) σ σ')).
Proof.
  intros Hm Hv Hw. rewrite (evaluate_get req σ Hm), Hv. unfold UserV2FromBase64.
  destruct (base64urlDecode (http.Var req "user")) as [idStr|e].
  - destruct (json.Unmarshal idStr zeroUser) as [user [e|]].
    + eexists. split; [reflexivity|]. right. eexists.
      now apply replied_WriteHeader_Write.
    + destruct (Key user) as [key|] eqn:Hk.
      * eexists. split; [reflexivity|]. left. exists user, key.
        unfold http.status, onResp, emit, http.Write, http.WriteHeader, http.SetHeader.
        simpl. rewrite Hw. simpl. auto.
      * eexists. split; [reflexivity|]. right. eexists.
        now apply replied_WriteHeader_Write.
  - eexists. split; [reflexivity|]. right. eexists.
    now apply replied_WriteHeader_Write.
Qed.

(** X12.  A GET evaluation that presents a registered key never panics.
    It answers 200 with the flags of the client registered under that
    key, for a user that has a key, after one call of the evaluator;
    or 400 with the marshalled error and no call. *)
Theorem authorized_get_evaluation (m : clientMuxHandler) req σ (key : string)
    (c : LDClient) :
  fetchAuthToken req = inl key ->
  index (clients m) key = Some c ->
  http.Method req <> "REPORT" ->
  http.written (resp σ) = None ->
  exists σ',
    authorize (byClient m) evaluate req σ = Done σ' /\
    ((exists user key',
        Key user = Some key' /\
        http.status (resp σ') = Some http.StatusOK /\
        http.body (resp σ') = http.body (resp σ) +:+ json.Marshal (AllFlags c user) /\
        trace σ' = trace σ ++ [CallAllFlags c user]) \/
     (exists err, replied http.StatusBadRequest (json.Marshal (mkErrorJson err)) σ σ')).
Proof.
  intros Ht Hc Hm Hw. simpl. unfold clientMuxHandler_authorizeMethod.
  rewrite (authorizeMethod_flagReader_hit _ _ _ key c Ht Hc).
  exact (evaluate_get_served (http.WithValue req (clientContextImpl (Some c))) σ c
           Hm eq_refl Hw).
Qed.

(** X13.  A browser GET evaluation for a known environment id needs no
    credential and never panics.  It answers 200 with the flags of the
    client of that environment, or 400 with the marshalled error; in
    both cases with the permissive CORS header. *)
Theorem browser_get_evaluation (m : clientMuxHandler) req σ (c : LDClient) :
  index (clients m) (http.Var req "envId") = Some c ->
  http.Method req <> "REPORT" ->
  http.written (resp σ) = None ->
  exists σ',
    findEnvironment m evaluate req σ = Done σ' /\
    ((exists user key,
        Key user = Some key /\
        http.status (resp σ') = Some http.StatusOK /\
        http.body (resp σ') = http.body (resp σ) +:+ json.Marshal (AllFlags c user) /\
        trace σ' = trace σ ++ [CallAllFlags c user]) \/
     (exists err, replied http.StatusBadRequest (json.Marshal (mkErrorJson err)) σ σ')).
Proof.
  intros Hc Hm Hw. rewrite (findEnvironment_known m _ req σ c Hc).
  exact (evaluate_get_served (http.WithValue req (clientContextImpl (Some c)))
           (onResp (http.SetHeader "Access-Control-Allow-Origin" "*") σ) c
           Hm eq_refl Hw).
Qed.

(** X14.  A user path segment that holds a byte foreign to base64url is
    answered 400 with the message about base64, and the evaluator is
    not called. *)
Theorem evaluate_get_foreign_base64 req σ :
  http.Method req <> "REPORT" ->
  http.written (resp σ) = None ->
  hasForeign (http.Var req "user") = true ->
  exists σ',
    evaluate req σ = Done σ' /\
    replied http.StatusBadRequest
      (json.Marshal (mkErrorJson "User part of url path did not decode as valid base64"))
      σ σ'.
Proof.
  intros Hm Hw Hf. rewrite (evaluate_get req σ Hm). unfold UserV2FromBase64.
  rewrite (base64_refusals.base64urlDecode_foreign _ Hf).
  eexists. split; [reflexivity|]. now apply replied_WriteHeader_Write.
Qed.

(** X15.  A REPORT body that json.Unmarshal refuses is answered 400 with
    the marshalled text of its error, and the evaluator is not
    called. *)
Theorem report_decode_error req σ (user : option User) (err : error) :
  http.Method req = "REPORT" ->
  http.Header_Get (http.ReqHeader req) "Content-Type" = "application/json" ->
  http.written (resp σ) = None ->
  json.Unmarshal (http.Body req) (None : option User) = (user, Some err) ->
  exists σ',
    evaluate req σ = Done σ' /\
    replied http.StatusBadRequest (json.Marshal (mkErrorJson err)) σ σ'.
Proof.
  intros Hm Hct Hw Hj. unfold evaluateAllFeatureFlags.
  rewrite decide_True by exact Hm. rewrite decide_True by exact Hct. rewrite Hj.
  eexists. split; [reflexivity|]. now apply replied_WriteHeader_Write.
Qed.

(** Whatever the evaluation handler answers, the headers it sends are
    those set before it ran, and a Content-Type of its own. *)
Lemma evaluate_sent_headers req σ σ' (key : string) :
  evaluate req σ = Done σ' ->
  http.written (resp σ) = None ->
  key <> "Content-Type" ->
  http.sentHeader (resp σ') key = http.Header_Get (http.header (resp σ)) key.
Proof.
  intros He Hw Hk. unfold evaluateAllFeatureFlags in He.
  assert (Hplain : forall code text,
            http.sentHeader
              (resp (onResp (http.Write text) (onResp (http.WriteHeader code) σ))) key
            = http.Header_Get (http.header (resp σ)) key).
  { intros code text.
    unfold http.sentHeader, onResp, http.Write, http.WriteHeader. simpl.
    rewrite Hw. reflexivity. }
  assert (Hfinish : forall decoded : option User * option error,
    (let '(user, userDecodeErr) := decoded in
     match userDecodeErr with
     | Some err =>
         Done (onResp (http.Write (ErrorJsonMsg err))
                      (onResp (http.WriteHeader http.StatusBadRequest) σ))
     | None =>
         match http.Value req with
         | Some (clientContextImpl client) =>
             match user with
             | None => Panic "nil pointer dereference"
             | Some u =>
                 match client with
                 | None => Panic "nil pointer dereference"
                 | Some c =>
                     Done (onResp (http.Write (json.Marshal (AllFlags c u)))
                            (onResp (http.WriteHeader http.StatusOK)
                               (onResp (http.SetHeader "Content-Type" "application/json")
                                  (emit (CallAllFlags c u) σ))))
                 end
             end
         | _ => Panic "interface conversion"
         end
     end) = Done σ' ->
    http.sentHeader (resp σ') key = http.Header_Get (http.header (resp σ)) key).
  { intros [user [err|]].
    - intros [= <-]. apply Hplain.
    - destruct (http.Value req) as [[client|]|]; try discriminate.
      destruct user as [u|]; [|discriminate].
      destruct client as [c|]; [|discriminate].
      intros [= <-].
      unfold http.sentHeader, onResp, emit, http.Write, http.WriteHeader, http.SetHeader,
        http.Header_Set, http.Header_Get.
      simpl. rewrite Hw. simpl. unfold http.Header.
      now rewrite lookup_insert_ne by congruence. }
  destruct (decide (http.Method req = "REPORT")).
  - destruct (decide (http.Header_Get (http.ReqHeader req) "Content-Type"
                      = "application/json")).
    + exact (Hfinish _ He).
    + injection He as <-. apply Hplain.
  - exact (Hfinish _ He).
Qed.

(** X16.  Every reply of a browser evaluation route carries the
    permissive CORS header, be it 404, 415, 400 or 200. *)
Theorem browser_reply_cors (m : clientMuxHandler) req σ σ' :
  http.written (resp σ) = None ->
  findEnvironment m evaluate req σ = Done σ' ->
  http.sentHeader (resp σ') "Access-Control-Allow-Origin" = "*".
Proof.
  intros Hw. unfold findEnvironment.
  destruct (index (clients m) (http.Var req "envId")) as [client|].
  - intros He.
    rewrite (evaluate_sent_headers _ _ _ "Access-Control-Allow-Origin" He)
      by (exact Hw || discriminate).
    unfold onResp, http.SetHeader, http.Header_Set, http.Header_Get. simpl.
    unfold http.Header. now rewrite lookup_insert_eq.
  - intros [= <-].
    unfold http.sentHeader, onResp, http.Write, http.WriteHeader, http.SetHeader,
      http.Header_Set, http.Header_Get.
    simpl. rewrite Hw. simpl. unfold http.Header. now rewrite lookup_insert_eq.
Qed.

(** *** Startup *)

Implicit Types (r : registry (User := User) (FlagValues := FlagValues)).
Implicit Types (client : LDClient (User := User) (FlagValues := FlagValues)).

Lemma startEnvironment_cases (c : Config) (envConfig : EnvConfig) client
    (err : option error) r :
  startEnvironment c envConfig client err r
  = if fatal c err then Exit 1
    else Running (registerEnvironment c envConfig client err r).
Proof.
  unfold startEnvironment, fatal, registerEnvironment, failedStart. simpl.
  destruct (bool_decide (err <> None) && negb (IgnoreConnectionErrors (Main c)));
    destruct (ExitOnError (Main c)); reflexivity.
Qed.

Lemma initialRegistry_lookup (c : Config) (k : string) :
  (main_clients (initialRegistry (User := User) (FlagValues := FlagValues) c) !! k
     = Some None /\
   exists name envConfig, Environment c !! name = Some envConfig /\ ApiKey envConfig = k)
  \/
  (main_clients (initialRegistry (User := User) (FlagValues := FlagValues) c) !! k = None /\
   forall name envConfig, Environment c !! name = Some envConfig -> ApiKey envConfig <> k).
Proof.
  unfold initialRegistry. simpl.
  apply (map_fold_weak_ind
           (fun (acc : gmap string flagReader) (m : gmap string EnvConfig) =>
              (acc !! k = Some None /\
               exists name envConfig, m !! name = Some envConfig /\ ApiKey envConfig = k)
              \/
              (acc !! k = None /\
               forall name envConfig, m !! name = Some envConfig -> ApiKey envConfig <> k))).
  - right. split; [apply lookup_empty|]. intros name e. now rewrite lookup_empty.
  - intros name e m acc Hfresh IH.
    destruct (decide (ApiKey e = k)) as [Heq|Hne].
    + left. split; [rewrite Heq; apply lookup_insert_eq|].
      exists name, e. split; [apply lookup_insert_eq | exact Heq].
    + destruct IH as [[Hk (n' & e' & Hn' & He')] | [Hk Hnone]].
      * left. split; [now rewrite lookup_insert_ne by exact Hne|].
        exists n', e'. split; [|exact He'].
        rewrite lookup_insert_ne; [exact Hn'|]. intros ->. congruence.
      * right. split; [now rewrite lookup_insert_ne by exact Hne|]. intros n' e' Hn'.
        destruct (decide (name = n')) as [->|Hnn].
        -- rewrite lookup_insert_eq in Hn'. now injection Hn' as <-.
        -- rewrite lookup_insert_ne in Hn' by exact Hnn. now apply (Hnone n' e').
Qed.

(** The entries and the flag the loop of [getStatus] ends with. *)
Lemma statusLoop_entries (m : gmap string (flagReader (User := User) (FlagValues := FlagValues))) :
  (forall k, fst (statusLoop m) !! k = statusEntryOf <$> m !! k) /\
  (snd (statusLoop m) = true <-> map_Forall (fun _ v => connected v = true) m).
Proof.
  unfold statusLoop.
  apply (map_fold_weak_ind
           (fun (acc : gmap string StatusEntry * bool) m =>
              (forall k, fst acc !! k = statusEntryOf <$> m !! k) /\
              (snd acc = true <-> map_Forall (fun _ v => connected v = true) m))).
  - split.
    + intros k. now rewrite !lookup_empty.
    + split; [intros _; apply map_Forall_empty | reflexivity].
  - intros i v m' [envs healthy] Hfresh [IHe IHh]. simpl in IHe, IHh.
    rewrite (map_Forall_insert _ _ _ _ Hfresh). split.
    + intros k. destruct (decide (i = k)) as [->|Hne].
      * rewrite lookup_insert_eq.
        destruct v as [client|]; [destruct (Initialized client) eqn:Hinit|]; simpl;
          rewrite lookup_insert_eq; unfold statusEntryOf, connected;
          now rewrite ?Hinit.
      * rewrite lookup_insert_ne by exact Hne. rewrite <- IHe.
        destruct v as [client|]; [destruct (Initialized client)|]; simpl;
          now rewrite lookup_insert_ne by exact Hne.
    + unfold connected at 1.
      destruct v as [client|]; [destruct (Initialized client)|]; simpl.
      * rewrite IHh. split; [now split | now intros [_ ?]].
      * split; [discriminate | intros [? _]; discriminate].
      * split; [discriminate | intros [? _]; discriminate].
Qed.

(** X17.  Before any environment has started, the server map holds
    exactly the configured server keys, each with a nil client, and
    the other four maps are empty. *)
Theorem initialRegistry_keys (c : Config) (k : string) :
  let r0 := initialRegistry (User := User) (FlagValues := FlagValues) c in
  (main_clients r0 !! k = Some None <->
     exists name envConfig, Environment c !! name = Some envConfig /\ ApiKey envConfig = k) /\
  (main_clients r0 !! k = None <->
     forall name envConfig, Environment c !! name = Some envConfig -> ApiKey envConfig <> k) /\
  main_mobileClients r0 = ∅ /\ main_clientSideClients r0 = ∅ /\
  main_handlers r0 = ∅ /\ main_eventHandlers r0 = ∅.
Proof.
  intros r0. subst r0.
  destruct (initialRegistry_lookup c k) as [[Hk Hex] | [Hk Hall]];
    unfold flagReader in Hk |- *; rewrite Hk.
  - split; [split; [intros _; exact Hex | reflexivity]|].
    split; [|repeat split].
    split; [discriminate|].
    intros Hnone. destruct Hex as (n & e & Hn & He). now destruct (Hnone n e Hn).
  - split; [|split; [split; [intros _; exact Hall | reflexivity] | repeat split]].
    split; [discriminate|].
    intros (n & e & Hn & He). now destruct (Hall n e Hn).
Qed.

(** X18.  Asked before any environment has started, [/status] lists
    every configured server key as disconnected, and the overall
    status is degraded as soon as one environment is configured. *)
Theorem status_before_start (c : Config) (base : string) req σ :
  exists (envs : gmap string StatusEntry) (overall : string),
    getStatus (mkClientMuxHandler (main_clients (initialRegistry c)) base) req σ
    = Done (onResp (http.Write (json.Marshal (mkStatusResponse envs overall)))
                   (onResp (http.SetHeader "Content-Type" "application/json") σ)) /\
    (forall name envConfig, Environment c !! name = Some envConfig ->
       envs !! ApiKey envConfig = Some (mkStatusEntry "disconnected")) /\
    (Environment c <> ∅ -> overall = "degraded").
Proof.
  set (m := main_clients (initialRegistry (User := User) (FlagValues := FlagValues) c)).
  destruct (statusLoop_entries m) as [Hentries Hhealthy].
  exists (fst (statusLoop m)), (if snd (statusLoop m) then "healthy" else "degraded").
  assert (Hkey : forall name envConfig, Environment c !! name = Some envConfig ->
                   m !! ApiKey envConfig = Some None).
  { intros name e Hn.
    destruct (initialRegistry_lookup c (ApiKey e)) as [[Hk _] | [_ Hall]]; [exact Hk|].
    now destruct (Hall name e Hn). }
  split; [|split].
  - unfold getStatus. simpl clients. fold (statusLoop m). now destruct (statusLoop m).
  - intros name e Hn. specialize (Hentries (ApiKey e)).
    pose proof (Hkey name e Hn) as Hm. unfold flagReader in Hentries, Hm.
    now rewrite Hentries, Hm.
  - intros Hne. apply map_choose in Hne as (name & e & Hn).
    destruct (snd (statusLoop m)); [|reflexivity].
    pose proof (proj1 Hhealthy eq_refl _ _ (Hkey name e Hn)) as Hs. discriminate Hs.
Qed.

(** X19.  The goroutine of an environment touches the maps at its own
    credentials only: every other key keeps its entry in each of the
    five maps. *)
Theorem startEnvironment_frame (c : Config) (envConfig : EnvConfig) client
    (err : option error) r r' (k : string) :
  startEnvironment c envConfig client err r = Running r' ->
  (k <> ApiKey envConfig ->
     main_clients r' !! k = main_clients r !! k /\
     main_handlers r' !! k = main_handlers r !! k /\
     main_eventHandlers r' !! k = main_eventHandlers r !! k) /\
  (nonEmpty (MobileKey envConfig) <> Some k ->
     main_mobileClients r' !! k = main_mobileClients r !! k) /\
  (nonEmpty (EnvId envConfig) <> Some k ->
     main_clientSideClients r' !! k = main_clientSideClients r !! k).
Proof.
  rewrite startEnvironment_cases.
  destruct (fatal c err); [discriminate|].
  intros [= <-]. unfold registerEnvironment. simpl. split; [|split].
  - intros Hk. split; [|split].
    + now rewrite lookup_insert_ne.
    + destruct (failedStart c err); [reflexivity|]. now rewrite lookup_insert_ne.
    + destruct (failedStart c err); [reflexivity|].
      destruct (SendEvents (Events c)); [|reflexivity]. now rewrite lookup_insert_ne.
  - intros Hk. destruct (nonEmpty (MobileKey envConfig)) as [k'|]; [|reflexivity].
    rewrite lookup_insert_ne; [reflexivity | congruence].
  - intros Hk. destruct (nonEmpty (EnvId envConfig)) as [k'|]; [|reflexivity].
    rewrite lookup_insert_ne; [reflexivity | congruence].
Qed.

(** X20.  When the client initialises, the environment is registered
    whatever the two flags say: client, stream handler and, if events
    are sent, event handler under the server key; the process does
    not exit. *)
Theorem startEnvironment_initialised (c : Config) (envConfig : EnvConfig) client r :
  exists r',
    startEnvironment c envConfig client None r = Running r' /\
    main_clients r' !! ApiKey envConfig = Some (Some client) /\
    main_handlers r' !! ApiKey envConfig
      = Some (Some (publisherHandler (ApiKey envConfig))) /\
    main_eventHandlers r' !! ApiKey envConfig
      = (if SendEvents (Events c)
         then Some (Some (relayHandler (ApiKey envConfig) c))
         else main_eventHandlers r !! ApiKey envConfig).
Proof.
  rewrite startEnvironment_cases. unfold fatal, registerEnvironment, failedStart. simpl.
  eexists. split; [reflexivity|]. simpl.
  rewrite !lookup_insert_eq. repeat split.
  destruct (SendEvents (Events c)); [apply lookup_insert_eq | reflexivity].
Qed.

(** X21.  After an environment has started without ending the process,
    [/status] reports its server key as connected exactly when its
    client is initialised; when it is not, the overall status is
    degraded. *)
Theorem status_after_start (c : Config) (envConfig : EnvConfig) client
    (err : option error) r r' (base : string) req σ :
  startEnvironment c envConfig client err r = Running r' ->
  exists (envs : gmap string StatusEntry) (overall : string),
    getStatus (mkClientMuxHandler (main_clients r') base) req σ
    = Done (onResp (http.Write (json.Marshal (mkStatusResponse envs overall)))
                   (onResp (http.SetHeader "Content-Type" "application/json") σ)) /\
    envs !! ApiKey envConfig
      = Some (mkStatusEntry (if Initialized client then "connected" else "disconnected")) /\
    (Initialized client = false -> overall = "degraded").
Proof.
  rewrite startEnvironment_cases.
  destruct (fatal c err); [discriminate|].
  intros [= <-].
  set (m := main_clients (registerEnvironment c envConfig client err r)).
  assert (Hk : m !! ApiKey envConfig = Some (Some client)) by apply lookup_insert_eq.
  destruct (statusLoop_entries m) as [Hentries Hhealthy].
  exists (fst (statusLoop m)), (if snd (statusLoop m) then "healthy" else "degraded").
  split; [|split].
  - unfold getStatus. simpl clients. fold (statusLoop m). now destruct (statusLoop m).
  - specialize (Hentries (ApiKey envConfig)). unfold flagReader in Hentries, Hk.
    now rewrite Hentries, Hk.
  - intros Hinit. destruct (snd (statusLoop m)); [|reflexivity].
    pose proof (proj1 Hhealthy eq_refl _ _ Hk) as Hs. simpl in Hs. congruence.
Qed.

(** X22.  When a client fails and neither flag is set, and no handler
    was stored under the key of that environment before, the routes
    [/flags] and [/bulk] answer a request presenting that key with 401
    and the explanation. *)
Theorem failed_start_stream_unauthorized (c : Config) (envConfig : EnvConfig) client
    (e : error) r req σ :
  IgnoreConnectionErrors (Main c) = false ->
  ExitOnError (Main c) = false ->
  index (main_handlers r) (ApiKey envConfig) = None ->
  index (main_eventHandlers r) (ApiKey envConfig) = None ->
  fetchAuthToken req = inl (ApiKey envConfig) ->
  http.written (resp σ) = None ->
  exists r' σ',
    startEnvironment c envConfig client (Some e) r = Running r' /\
    router Key zeroUser ServeHTTP NewRequest_ok Do c r' GET_flags req σ = Done σ' /\
    router Key zeroUser ServeHTTP NewRequest_ok Do c r' POST_bulk req σ = Done σ' /\
    replied http.StatusUnauthorized "ld-relay is not configured for the provided key" σ σ'.
Proof.
  intros Hi Hx Hh Heh Ht Hw.
  rewrite startEnvironment_cases. unfold fatal, registerEnvironment, failedStart. simpl.
  rewrite Hi, Hx. simpl.
  eexists. eexists. split; [reflexivity|].
  unfold streamMuxHandler_authorizeMethod, eventsMuxHandler_authorizeMethod. simpl.
  rewrite (authorizeMethod_handler_miss _ σ req (ApiKey envConfig) Ht Hh).
  rewrite (authorizeMethod_handler_miss _ σ req (ApiKey envConfig) Ht Heh).
  split; [reflexivity | split; [reflexivity|]].
  now apply replied_WriteHeader_Write.
Qed.

Lemma fatal_flags (c : Config) (err : option error) :
  fatal c err = true <->
  err <> None /\ IgnoreConnectionErrors (Main c) = false /\ ExitOnError (Main c) = true.
Proof.
  unfold fatal, failedStart. rewrite !andb_true_iff, bool_decide_eq_true, negb_true_iff.
  split; [intros [[? ?] ?] | intros (? & ? & ?)]; auto.
Qed.

(** X23.  The goroutine of an environment ends the process exactly when
    its client failed, [exitOnError] is set and
    [ignoreConnectionErrors] is not, and then with status 1; in every
    other case it runs to its end. *)
Theorem startEnvironment_exit_only (c : Config) (envConfig : EnvConfig) client
    (err : option error) r :
  (forall code, startEnvironment c envConfig client err r = Exit code <->
     code = 1%nat /\ err <> None /\
     IgnoreConnectionErrors (Main c) = false /\ ExitOnError (Main c) = true) /\
  ((exists r', startEnvironment c envConfig client err r = Running r') <->
     err = None \/ IgnoreConnectionErrors (Main c) = true \/ ExitOnError (Main c) = false).
Proof.
  rewrite startEnvironment_cases.
  pose proof (fatal_flags c err) as Hf.
  destruct (fatal c err).
  - destruct (proj1 Hf eq_refl) as (He & Hi & Hx). split.
    + intros code. split.
      * intros [= <-]. auto.
      * intros (-> & _). reflexivity.
    + split.
      * intros [r' Hr]. discriminate Hr.
      * intros [Hn | [Hn | Hn]]; congruence.
  - split.
    + intros code. split; [discriminate|].
      intros (_ & He & Hi & Hx). discriminate (proj2 Hf (conj He (conj Hi Hx))).
    + split; [|intros _; now eexists].
      intros _. destruct err as [e|]; [|now left].
      destruct (IgnoreConnectionErrors (Main c)) eqn:Hi; [right; now left|].
      destruct (ExitOnError (Main c)) eqn:Hx; [|right; now right].
      assert (Hne : Some e <> None) by discriminate.
      discriminate (proj2 Hf (conj Hne (conj eq_refl eq_refl))).
Qed.
End MoreRelayFacts.

Import scenario_more.

Lemma fetchAuthToken_token_shape_witness :
  fetchAuthToken (scenario.authRequest ("api_key " +:+ scenario.sdkKey)) = inl scenario.sdkKey /\
  (http.Header_Get (http.ReqHeader (scenario.authRequest ("api_key " +:+ scenario.sdkKey)))
                   "Authorization" = scenario.sdkKey \/
   http.Header_Get (http.ReqHeader (scenario.authRequest ("api_key " +:+ scenario.sdkKey)))
                   "Authorization" = "api_key " +:+ scenario.sdkKey) /\
  tokenShaped scenario.sdkKey = true /\
  (String.length scenario.sdkKey = 36%nat \/ String.length scenario.sdkKey = 40%nat).
Proof.
  assert (H : fetchAuthToken (scenario.authRequest ("api_key " +:+ scenario.sdkKey))
              = inl scenario.sdkKey) by (vm_compute; reflexivity).
  split; [exact H|].
  exact (fetchAuthToken_token_shape _ _ H).
Defined.

Lemma fetchAuthToken_tokenShaped_witness :
  tokenShaped scenario.uuid = true /\
  (http.Header_Get (http.ReqHeader (scenario.authRequest scenario.uuid)) "Authorization"
     = scenario.uuid \/
   http.Header_Get (http.ReqHeader (scenario.authRequest scenario.uuid)) "Authorization"
     = "api_key " +:+ scenario.uuid) /\
  fetchAuthToken (scenario.authRequest scenario.uuid) = inl scenario.uuid.
Proof.
  assert (H1 : tokenShaped scenario.uuid = true) by (vm_compute; reflexivity).
  assert (H2 : http.Header_Get (http.ReqHeader (scenario.authRequest scenario.uuid))
                 "Authorization" = scenario.uuid \/
               http.Header_Get (http.ReqHeader (scenario.authRequest scenario.uuid))
                 "Authorization" = "api_key " +:+ scenario.uuid) by (left; reflexivity).
  split; [exact H1 | split; [exact H2|]].
  exact (fetchAuthToken_tokenShaped _ _ H1 H2).
Defined.

Lemma authorize_registered_witness :
  fetchAuthToken (scenario.authRequest scenario.sdkKey) = inl scenario.sdkKey /\
  authorize (byClient (mkClientMuxHandler scenario_more.registered EmptyString))
            scenario.evaluate (scenario.authRequest scenario.sdkKey) scenario.world0
  = scenario.evaluate
      (http.WithValue (scenario.authRequest scenario.sdkKey)
                      (clientContextImpl (Some scenario.client)))
      scenario.world0.
Proof.
  assert (H : fetchAuthToken (scenario.authRequest scenario.sdkKey) = inl scenario.sdkKey)
    by (vm_compute; reflexivity).
  split; [exact H|].
  exact (authorize_registered
           (byClient (mkClientMuxHandler scenario_more.registered EmptyString))
           scenario.evaluate (scenario.authRequest scenario.sdkKey) scenario.world0
           scenario.sdkKey H scenario.client eq_refl).
Defined.

Lemma serve_registered_handler_witness :
  fetchAuthToken (scenario.authRequest scenario.sdkKey) = inl scenario.sdkKey /\
  index scenario_more.publishers scenario.sdkKey = Some (publisherHandler scenario.sdkKey) /\
  authorize (byStream (mkStreamMuxHandler scenario_more.publishers))
            (serveHandler scenario_more.silent)
            (scenario.authRequest scenario.sdkKey) scenario.world0
  = scenario_more.silent (publisherHandler scenario.sdkKey)
      (http.WithValue (scenario.authRequest scenario.sdkKey)
         (handlerContextImpl (Some (publisherHandler scenario.sdkKey))))
      (emit (CallServeHTTP (publisherHandler scenario.sdkKey)) scenario.world0).
Proof.
  assert (H1 : fetchAuthToken (scenario.authRequest scenario.sdkKey) = inl scenario.sdkKey)
    by (vm_compute; reflexivity).
  assert (H2 : index scenario_more.publishers scenario.sdkKey
               = Some (publisherHandler scenario.sdkKey)) by reflexivity.
  split; [exact H1 | split; [exact H2|]].
  exact (proj1 (serve_registered_handler scenario_more.silent scenario_more.publishers
                  (scenario.authRequest scenario.sdkKey) scenario.world0
                  scenario.sdkKey (publisherHandler scenario.sdkKey) H1 H2)).
Defined.

Lemma authorized_get_evaluation_witness :
  fetchAuthToken (scenario_more.evalUsers "eyJrZXkiOiJ1MSJ9") = inl scenario.sdkKey /\
  index scenario_more.registered scenario.sdkKey = Some scenario.client /\
  http.Method (scenario_more.evalUsers "eyJrZXkiOiJ1MSJ9") <> "REPORT" /\
  http.written (resp scenario.world0) = None /\
  exists σ',
    authorize (byClient (mkClientMuxHandler scenario_more.registered EmptyString))
              scenario.evaluate (scenario_more.evalUsers "eyJrZXkiOiJ1MSJ9") scenario.world0 = Done σ' /\
    ((exists user key,
        sample.Key user = Some key /\
        http.status (resp σ') = Some http.StatusOK /\
        http.body (resp σ')
          = http.body (resp scenario.world0) +:+ json.Marshal (AllFlags scenario.client user) /\
        trace σ' = trace scenario.world0 ++ [CallAllFlags scenario.client user]) \/
     (exists err,
        replied http.StatusBadRequest (json.Marshal (mkErrorJson err)) scenario.world0 σ')).
Proof.
  assert (H1 : fetchAuthToken (scenario_more.evalUsers "eyJrZXkiOiJ1MSJ9") = inl scenario.sdkKey)
    by (vm_compute; reflexivity).
  assert (H3 : http.Method (scenario_more.evalUsers "eyJrZXkiOiJ1MSJ9") <> "REPORT") by discriminate.
  split; [exact H1 | split; [reflexivity | split; [exact H3 | split; [reflexivity|]]]].
  exact (authorized_get_evaluation sample.Key sample.zeroUser
           (mkClientMuxHandler scenario_more.registered EmptyString)
           (scenario_more.evalUsers "eyJrZXkiOiJ1MSJ9") scenario.world0 scenario.sdkKey scenario.client
           H1 eq_refl H3 eq_refl).
Defined.

Lemma browser_get_evaluation_witness :
  index (clients scenario_more.browser)
        (http.Var (scenario_more.browserUsers "eyJrZXkiOiJ1MSJ9") "envId") = Some scenario.client /\
  http.Method (scenario_more.browserUsers "eyJrZXkiOiJ1MSJ9") <> "REPORT" /\
  http.written (resp scenario.world0) = None /\
  exists σ',
    findEnvironment scenario_more.browser scenario.evaluate
                    (scenario_more.browserUsers "eyJrZXkiOiJ1MSJ9") scenario.world0 = Done σ' /\
    ((exists user key,
        sample.Key user = Some key /\
        http.status (resp σ') = Some http.StatusOK /\
        http.body (resp σ')
          = http.body (resp scenario.world0) +:+ json.Marshal (AllFlags scenario.client user) /\
        trace σ' = trace scenario.world0 ++ [CallAllFlags scenario.client user]) \/
     (exists err,
        replied http.StatusBadRequest (json.Marshal (mkErrorJson err)) scenario.world0 σ')).
Proof.
  assert (H2 : http.Method (scenario_more.browserUsers "eyJrZXkiOiJ1MSJ9") <> "REPORT") by discriminate.
  split; [reflexivity | split; [exact H2 | split; [reflexivity|]]].
  exact (browser_get_evaluation sample.Key sample.zeroUser scenario_more.browser
           (scenario_more.browserUsers "eyJrZXkiOiJ1MSJ9") scenario.world0 scenario.client
           eq_refl H2 eq_refl).
Defined.

Lemma evaluate_get_foreign_base64_witness :
  http.Method (scenario_more.evalUsers "e30+") <> "REPORT" /\
  http.written (resp scenario.world0) = None /\
  hasForeign (http.Var (scenario_more.evalUsers "e30+") "user") = true /\
  exists σ',
    scenario.evaluate (scenario_more.evalUsers "e30+") scenario.world0 = Done σ' /\
    replied http.StatusBadRequest
      (json.Marshal (mkErrorJson "User part of url path did not decode as valid base64"))
      scenario.world0 σ'.
Proof.
  assert (H1 : http.Method (scenario_more.evalUsers "e30+") <> "REPORT") by discriminate.
  split; [exact H1 | split; [reflexivity | split; [reflexivity|]]].
  exact (evaluate_get_foreign_base64 sample.Key sample.zeroUser
           (scenario_more.evalUsers "e30+") scenario.world0 H1 eq_refl eq_refl).
Defined.

Lemma report_decode_error_witness :
  http.Method (scenario.report "application/json" EmptyString) = "REPORT" /\
  http.Header_Get (http.ReqHeader (scenario.report "application/json" EmptyString))
                  "Content-Type" = "application/json" /\
  http.written (resp scenario.world0) = None /\
  scenario_more.emptyBody (http.Body (scenario.report "application/json" EmptyString)) None
    = (None, Some "unexpected end of JSON input") /\
  exists σ',
    evaluateAllFeatureFlags (H0 := scenario_more.emptyBody) sample.Key sample.zeroUser
      (scenario.report "application/json" EmptyString) scenario.world0 = Done σ' /\
    replied http.StatusBadRequest
      (json.Marshal (mkErrorJson "unexpected end of JSON input")) scenario.world0 σ'.
Proof.
  repeat (split; [reflexivity|]).
  exact (report_decode_error (H0 := scenario_more.emptyBody) sample.Key sample.zeroUser
           (scenario.report "application/json" EmptyString) scenario.world0 None
           "unexpected end of JSON input" eq_refl eq_refl eq_refl eq_refl).
Defined.

Lemma browser_reply_cors_witness :
  http.written (resp scenario.world0) = None /\
  findEnvironment scenario.browser scenario.evaluate
                  (scenario.goals scenario_more.envId) scenario.world0
  = Done (mkWorld
            (http.mkResponseWriter
               {[ "Access-Control-Allow-Origin" := ["*"] ]}
               (Some (http.StatusNotFound, {[ "Access-Control-Allow-Origin" := ["*"] ]}))
               ("ld-relay is not configured for environment id " +:+ scenario_more.envId))
            []) /\
  http.sentHeader
    (http.mkResponseWriter
       {[ "Access-Control-Allow-Origin" := ["*"] ]}
       (Some (http.StatusNotFound, {[ "Access-Control-Allow-Origin" := ["*"] ]}))
       ("ld-relay is not configured for environment id " +:+ scenario_more.envId))
    "Access-Control-Allow-Origin" = "*".
Proof.
  assert (H2 : findEnvironment scenario.browser scenario.evaluate
                 (scenario.goals scenario_more.envId) scenario.world0
               = Done (mkWorld
                   (http.mkResponseWriter
                      {[ "Access-Control-Allow-Origin" := ["*"] ]}
                      (Some (http.StatusNotFound, {[ "Access-Control-Allow-Origin" := ["*"] ]}))
                      ("ld-relay is not configured for environment id "
                       +:+ scenario_more.envId))
                   [])) by (vm_compute; reflexivity).
  split; [reflexivity | split; [exact H2|]].
  exact (browser_reply_cors sample.Key sample.zeroUser scenario.browser
           (scenario.goals scenario_more.envId) scenario.world0 _ eq_refl H2).
Defined.

Lemma startEnvironment_frame_witness :
  startEnvironment scenario.config scenario_more.staging scenario_more.stagingClient None
                   scenario.registry0
  = Running (registerEnvironment scenario.config scenario_more.staging
               scenario_more.stagingClient None scenario.registry0) /\
  (scenario.sdkKey <> ApiKey scenario_more.staging ->
     main_clients (registerEnvironment scenario.config scenario_more.staging
                     scenario_more.stagingClient None scenario.registry0) !! scenario.sdkKey
       = main_clients scenario.registry0 !! scenario.sdkKey /\
     main_handlers (registerEnvironment scenario.config scenario_more.staging
                      scenario_more.stagingClient None scenario.registry0) !! scenario.sdkKey
       = main_handlers scenario.registry0 !! scenario.sdkKey /\
     main_eventHandlers (registerEnvironment scenario.config scenario_more.staging
                           scenario_more.stagingClient None scenario.registry0)
         !! scenario.sdkKey
       = main_eventHandlers scenario.registry0 !! scenario.sdkKey).
Proof.
  assert (H : startEnvironment scenario.config scenario_more.staging
                scenario_more.stagingClient None scenario.registry0
              = Running (registerEnvironment scenario.config scenario_more.staging
                           scenario_more.stagingClient None scenario.registry0))
    by reflexivity.
  split; [exact H|].
  exact (proj1 (startEnvironment_frame scenario.config scenario_more.staging
                  scenario_more.stagingClient None scenario.registry0 _
                  scenario.sdkKey H)).
Defined.

Lemma status_after_start_witness :
  startEnvironment scenario.config scenario.production scenario.client
                   (Some scenario.timeout) scenario.registry0
  = Running (registerEnvironment scenario.config scenario.production scenario.client
               (Some scenario.timeout) scenario.registry0) /\
  exists (envs : gmap string StatusEntry) (overall : string),
    getStatus (mkClientMuxHandler
                 (main_clients (registerEnvironment scenario.config scenario.production
                                  scenario.client (Some scenario.timeout) scenario.registry0))
                 EmptyString)
              (scenario.authRequest EmptyString) scenario.world0
    = Done (onResp (http.Write (json.Marshal (mkStatusResponse envs overall)))
                   (onResp (http.SetHeader "Content-Type" "application/json")
                           scenario.world0)) /\
    envs !! ApiKey scenario.production
      = Some (mkStatusEntry (if Initialized scenario.client
                             then "connected" else "disconnected")) /\
    (Initialized scenario.client = false -> overall = "degraded").
Proof.
  assert (H : startEnvironment scenario.config scenario.production scenario.client
                (Some scenario.timeout) scenario.registry0
              = Running (registerEnvironment scenario.config scenario.production
                           scenario.client (Some scenario.timeout) scenario.registry0))
    by reflexivity.
  split; [exact H|].
  exact (status_after_start scenario.config scenario.production scenario.client
           (Some scenario.timeout) scenario.registry0 _ EmptyString
           (scenario.authRequest EmptyString) scenario.world0 H).
Defined.

Lemma failed_start_stream_unauthorized_witness :
  IgnoreConnectionErrors (Main scenario.config) = false /\
  ExitOnError (Main scenario.config) = false /\
  index (main_handlers scenario.registry0) (ApiKey scenario.production) = None /\
  index (main_eventHandlers scenario.registry0) (ApiKey scenario.production) = None /\
  fetchAuthToken (scenario.authRequest scenario.sdkKey) = inl (ApiKey scenario.production) /\
  http.written (resp scenario.world0) = None /\
  exists r' σ',
    startEnvironment scenario.config scenario.production scenario.client
      (Some scenario.timeout) scenario.registry0 = Running r' /\
    router sample.Key sample.zeroUser scenario_more.silent (fun _ => true)
           scenario_more.unreachable scenario.config r' GET_flags
           (scenario.authRequest scenario.sdkKey) scenario.world0 = Done σ' /\
    router sample.Key sample.zeroUser scenario_more.silent (fun _ => true)
           scenario_more.unreachable scenario.config r' POST_bulk
           (scenario.authRequest scenario.sdkKey) scenario.world0 = Done σ' /\
    replied http.StatusUnauthorized "ld-relay is not configured for the provided key"
            scenario.world0 σ'.
Proof.
  assert (H5 : fetchAuthToken (scenario.authRequest scenario.sdkKey)
               = inl (ApiKey scenario.production)) by (vm_compute; reflexivity).
  do 4 (split; [reflexivity|]).
  split; [exact H5 | split; [reflexivity|]].
  exact (failed_start_stream_unauthorized sample.Key sample.zeroUser scenario_more.silent
           (fun _ => true) scenario_more.unreachable scenario.config scenario.production
           scenario.client scenario.timeout scenario.registry0
           (scenario.authRequest scenario.sdkKey) scenario.world0
           eq_refl eq_refl eq_refl eq_refl H5 eq_refl).
Defined.

Lemma getGoals_passthrough_witness :
  (fun _ : string => true)
    (outURL (goalsRequest scenario_more.browser (scenario.goals scenario_more.envId))) = true /\
  http.written (resp scenario.world0) = None /\
  scenario_more.goalsFound
    (goalsRequest scenario_more.browser (scenario.goals scenario_more.envId))
    = inl (http.mkResponse 200 {[ "Content-Type" := ["application/json"] ]} "[]") /\
  http.RespHeader (http.mkResponse 200 {[ "Content-Type" := ["application/json"] ]} "[]")
    !! "Content-Type" = Some ["application/json"] /\
  exists σ',
    getGoals (fun _ => true) scenario_more.goalsFound scenario_more.browser
             (scenario.goals scenario_more.envId) scenario.world0 = Done σ' /\
    http.status (resp σ') = Some 200%nat /\
    http.sentHeader (resp σ') "Content-Type" = "application/json" /\
    http.sentHeader (resp σ') "Access-Control-Allow-Origin" = "*" /\
    http.body (resp σ') = http.body (resp scenario.world0) +:+ "[]" /\
    trace σ' = trace scenario.world0
               ++ [CallDo (goalsRequest scenario_more.browser
                             (scenario.goals scenario_more.envId))].
Proof.
  repeat (split; [reflexivity|]).
  exact (getGoals_passthrough (fun _ => true) scenario_more.goalsFound scenario_more.browser
           (scenario.goals scenario_more.envId) scenario.world0
           (http.mkResponse 200 {[ "Content-Type" := ["application/json"] ]} "[]")
           "application/json" [] eq_refl eq_refl eq_refl eq_refl).
Defined.

Lemma getGoals_upstream_failure_witness :
  (fun _ : string => true)
    (outURL (goalsRequest scenario_more.browser (scenario.goals scenario_more.envId))) = true /\
  http.written (resp scenario.world0) = None /\
  scenario_more.unreachable
    (goalsRequest scenario_more.browser (scenario.goals scenario_more.envId))
    = inr "dial tcp: connection refused" /\
  exists σ',
    getGoals (fun _ => true) scenario_more.unreachable scenario_more.browser
             (scenario.goals scenario_more.envId) scenario.world0 = Done σ' /\
    http.status (resp σ') = Some http.StatusInternalServerError /\
    http.body (resp σ') = http.body (resp scenario.world0) /\
    trace σ' = trace scenario.world0
               ++ [CallDo (goalsRequest scenario_more.browser
                             (scenario.goals scenario_more.envId))].
Proof.
  repeat (split; [reflexivity|]).
  exact (getGoals_upstream_failure (fun _ => true) scenario_more.unreachable
           scenario_more.browser (scenario.goals scenario_more.envId) scenario.world0
           "dial tcp: connection refused" eq_refl eq_refl eq_refl).
Defined.

Lemma UserV2FromBase64_encoded_witness :
  (base64.RawURLEncoding = base64.URLEncoding \/
   base64.RawURLEncoding = base64.RawURLEncoding) /\
  json.Unmarshal scenario.userJson sample.zeroUser = (sample.mkUser (Some "u1"), None) /\
  sample.Key (sample.mkUser (Some "u1")) = Some "u1" /\
  UserV2FromBase64 sample.Key sample.zeroUser
    (base64.EncodeToString base64.RawURLEncoding scenario.userJson)
  = (Some (sample.mkUser (Some "u1")), None).
Proof.
  assert (H1 : base64.RawURLEncoding = base64.URLEncoding \/
               base64.RawURLEncoding = base64.RawURLEncoding) by (right; reflexivity).
  split; [exact H1 | split; [reflexivity | split; [reflexivity|]]].
  exact (UserV2FromBase64_encoded sample.Key sample.zeroUser base64.RawURLEncoding
           scenario.userJson (sample.mkUser (Some "u1")) "u1" H1 eq_refl eq_refl).
Defined.
